(** * climark: test and documentation generation around a local model

    A shallow embedding of [cli.py] and [markd.py].  Python [str] values
    are sequences of Unicode code points; everything outside the two
    files (file system, model endpoint, test runner) is an abstract
    environment, and every call that reaches it is recorded in a trace. *)

From Stdlib Require Import String Ascii List NArith ZArith Lia Bool.
Import ListNotations.
Local Open Scope N_scope.

(** ** Python strings *)

Definition char := N.
Definition str := list char.

(** ASCII literal to [str]. *)
Definition u (s : string) : str := map N_of_ascii (list_ascii_of_string s).
Arguments u : simpl never.

Definition NL : str := [10].

Fixpoint str_eqb (a b : str) : bool :=
  match a, b with
  | [], [] => true
  | x :: a', y :: b' => (x =? y) && str_eqb a' b'
  | _, _ => false
  end.

(** [x in xs] on a list of strings. *)
Definition str_in (x : str) (xs : list str) : bool := existsb (str_eqb x) xs.

(** [str.isspace] on one code point (the table behind [str.strip]). *)
Definition isspace (c : char) : bool :=
  ((9 <=? c) && (c <=? 13)) || ((28 <=? c) && (c <=? 32))
  || (c =? 133) || (c =? 160) || (c =? 5760)
  || ((8192 <=? c) && (c <=? 8202))
  || (c =? 8232) || (c =? 8233) || (c =? 8239) || (c =? 8287) || (c =? 12288).

(** The line boundaries of [str.splitlines]. *)
Definition is_linebreak (c : char) : bool :=
  ((10 <=? c) && (c <=? 13)) || ((28 <=? c) && (c <=? 30))
  || (c =? 133) || (c =? 8232) || (c =? 8233).

(** [str.splitlines()]: no line for the empty text and none after a final
    boundary; a carriage return directly followed by a line feed is one
    boundary. *)
Fixpoint splitlines (s : str) : list str :=
  match s with
  | [] => []
  | c :: s' =>
    if is_linebreak c then
      [] :: (if c =? 13
             then match s' with
                  | x :: r => if x =? 10 then splitlines r else splitlines s'
                  | [] => []
                  end
             else splitlines s')
    else match splitlines s' with
         | [] => [[c]]
         | l :: ls => (c :: l) :: ls
         end
  end.

Fixpoint lstrip (s : str) : str :=
  match s with
  | c :: s' => if isspace c then lstrip s' else s
  | [] => []
  end.

Definition rstrip (s : str) : str := rev (lstrip (rev s)).

(** [str.strip()]. *)
Definition strip (s : str) : str := rstrip (lstrip s).

(** [sep.join(xs)]. *)
Fixpoint join (sep : str) (xs : list str) : str :=
  match xs with
  | [] => []
  | [x] => x
  | x :: xs' => x ++ sep ++ join sep xs'
  end.

Definition fence_markers : list str := [u "```python"; u "```"].

(** The generator expression of [clean_code]: the lines that are kept. *)
Definition keep_line (line : str) : bool := negb (str_in (strip line) fence_markers).

Definition kept_lines (text : str) : list str := filter keep_line (splitlines text).

(** The value [clean_code] returns (the same expression in both files). *)
Definition clean_code_value (text : str) : str := join NL (kept_lines text).


(** ** Paths ([posixpath]) *)

Definition SEP : char := 47.
Definition DOT : char := 46.

Fixpoint startswith (s prefix : str) {struct prefix} : bool :=
  match prefix, s with
  | [], _ => true
  | p :: prefix', c :: s' => (c =? p) && startswith s' prefix'
  | _ :: _, [] => false
  end.

Definition endswith (s suffix : str) : bool := startswith (rev s) (rev suffix).

Definition is_empty (s : str) : bool := match s with [] => true | _ => false end.

(** [os.path.join(a, b)]. *)
Definition os_path_join (a b : str) : str :=
  if startswith b [SEP] then b
  else if is_empty a || endswith a [SEP] then a ++ b
  else a ++ [SEP] ++ b.

(** [s.rfind(c)] for a single character: the last index, or [-1]. *)
Fixpoint rfind (c : char) (s : str) : Z :=
  match s with
  | [] => (-1)%Z
  | x :: s' =>
    let r := rfind c s' in
    if (0 <=? r)%Z then (r + 1)%Z else if x =? c then 0%Z else (-1)%Z
  end.

(** [s[i:j]] for [0 <= i]. *)
Definition slice (s : str) (i j : Z) : str :=
  firstn (Z.to_nat (j - i)) (skipn (Z.to_nat i) s).

(** [os.path.splitext(p)]: the extension starts at the last dot of the
    last component, unless only dots precede it there. *)
Definition splitext (p : str) : str * str :=
  let sepIndex := rfind SEP p in
  let dotIndex := rfind DOT p in
  if (sepIndex <? dotIndex)%Z
     && existsb (fun c => negb (c =? DOT)) (slice p (sepIndex + 1) dotIndex)
  then (firstn (Z.to_nat dotIndex) p, skipn (Z.to_nat dotIndex) p)
  else (p, []).

(** ** The environment *)

(** What a call into the environment gives back: a value, or an error
    with the text [str(e)] of the exception it raises. *)
Inductive result (A : Type) : Type :=
| Success (a : A)
| Failure (msg : str).
Arguments Success {A} a.
Arguments Failure {A} msg.

(** The operating system as the two files use it.  [FS] is the state of
    the file system. *)
Class OS (FS : Type) : Type := {
  (** [os.path.exists(p)] *)
  fs_exists : str -> FS -> bool;
  (** one directory listing of [os.walk]: sub-directories and other entries *)
  fs_scandir : str -> FS -> result (list str * list str);
  (** [open(p, "r", encoding="utf-8").read()] *)
  fs_read : str -> FS -> result str;
  (** [os.makedirs(p, exist_ok=True)] *)
  fs_makedirs : str -> FS -> result unit * FS;
  (** [open(p, "w", encoding="utf-8").write(content)] *)
  fs_write : str -> str -> FS -> result unit * FS;
  (** [os.path.relpath(path, start)] *)
  fs_relpath : str -> str -> FS -> str;
  (** [subprocess.run(["pytest", folder], capture_output=True, text=True)]:
      stdout, stderr and return code *)
  fs_pytest : str -> FS -> result (str * str * Z) * FS
}.

Inductive Level : Type := DEBUG | INFO | ERROR.

(** Everything the program does that can be observed from outside, and
    whether the environment let it succeed. *)
Inductive Event : Type :=
| Log (lvl : Level) (msg : str)
| Print (msg : str)
| PrintHelp
| ArgError (msg : str)
| Yield (root : str) (dirs files : list str)
| Read (path : str) (ok : bool)
| Invoke (prompt : str) (ok : bool)
| Makedirs (path : str) (ok : bool)
| Write (path content : str) (ok : bool)
| Subprocess (folder : str) (ok : bool).

(** The model endpoint answers the [n]-th call of the run; [calls] counts
    them. *)
Record World (FS : Type) : Type := mkWorld {
  fs : FS;
  llm : nat -> str -> result str;
  calls : nat;
  trace : list Event
}.
Arguments mkWorld {FS}.
Arguments fs {FS}.
Arguments llm {FS}.
Arguments calls {FS}.
Arguments trace {FS}.

(** ** Exceptions and state *)

(** [except Exception] catches the first kind only. *)
Inductive exn : Type :=
| Exception (msg : str)
| SystemExit (status : Z).

Inductive outcome (A : Type) : Type :=
| Ok (a : A)
| Raise (e : exn)
| OutOfFuel.
Arguments Ok {A} a.
Arguments Raise {A} e.
Arguments OutOfFuel {A}.

Definition M (FS A : Type) : Type := World FS -> outcome A * World FS.

Definition ret {FS A} (a : A) : M FS A := fun w => (Ok a, w).

Definition bind {FS A B} (m : M FS A) (k : A -> M FS B) : M FS B :=
  fun w =>
    match m w with
    | (Ok a, w') => k a w'
    | (Raise e, w') => (Raise e, w')
    | (OutOfFuel, w') => (OutOfFuel, w')
    end.

Notation "x <- m ;; k" := (bind m (fun x => k))
  (at level 61, m at next level, right associativity).
Notation "m ;; k" := (bind m (fun _ => k))
  (at level 61, right associativity).

Definition raise {FS A} (e : exn) : M FS A := fun w => (Raise e, w).

(** [try: m  except Exception as e: handler(str(e))] *)
Definition try_except {FS A} (m : M FS A) (handler : str -> M FS A) : M FS A :=
  fun w =>
    match m w with
    | (Raise (Exception msg), w') => handler msg w'
    | r => r
    end.

(** A [for] loop; [s] is the local state the body updates. *)
Fixpoint for_each {FS A St} (xs : list A) (body : A -> St -> M FS St) (s : St) : M FS St :=
  match xs with
  | [] => ret s
  | x :: xs' => s' <- body x s ;; for_each xs' body s'
  end.

Definition emit {FS} (e : Event) : M FS unit :=
  fun w => (Ok tt, mkWorld (fs w) (llm w) (calls w) (trace w ++ [e])).

Definition logger {FS} (lvl : Level) (msg : str) : M FS unit := emit (Log lvl msg).

Definition print {FS} (msg : str) : M FS unit := emit (Print msg).

Definition succeeded {A} (r : result A) : bool :=
  match r with Success _ => true | Failure _ => false end.

Definition lift_result {FS A} (r : result A) : M FS A :=
  match r with
  | Success a => ret a
  | Failure msg => raise (Exception msg)
  end.

Section Primitives.
Context {FS : Type} {os : OS FS}.

Definition set_fs (fs' : FS) : M FS unit :=
  fun w => (Ok tt, mkWorld fs' (llm w) (calls w) (trace w)).

Definition os_path_exists (p : str) : M FS bool :=
  fun w => (Ok (fs_exists p (fs w)), w).

Definition os_path_relpath (p start : str) : M FS str :=
  fun w => (Ok (fs_relpath p start (fs w)), w).

Definition read_file (p : str) : M FS str :=
  fun w =>
    let r := fs_read p (fs w) in
    (emit (Read p (succeeded r)) ;; lift_result r) w.

Definition os_makedirs (p : str) : M FS unit :=
  fun w =>
    let (r, fs') := fs_makedirs p (fs w) in
    (emit (Makedirs p (succeeded r)) ;; set_fs fs' ;; lift_result r) w.

Definition write_file (p content : str) : M FS unit :=
  fun w =>
    let (r, fs') := fs_write p content (fs w) in
    (emit (Write p content (succeeded r)) ;; set_fs fs' ;; lift_result r) w.

Definition subprocess_run_pytest (folder : str) : M FS (str * str * Z) :=
  fun w =>
    let (r, fs') := fs_pytest folder (fs w) in
    (emit (Subprocess folder (succeeded r)) ;; set_fs fs' ;; lift_result r) w.

(** One call of the model endpoint with a complete prompt. *)
Definition model_invoke (prompt : str) : M FS str :=
  fun w =>
    let r := llm w (calls w) prompt in
    (emit (Invoke prompt (succeeded r)) ;; lift_result r)
      (mkWorld (fs w) (llm w) (S (calls w)) (trace w)).

(** [os.walk(top)], top-down: a directory is listed when it is reached,
    the loop body runs on the listing, then the sub-directories follow
    in order.  A directory that cannot be listed is passed over.  [fuel]
    bounds the depth. *)
Fixpoint os_walk {St} (fuel : nat) (top : str)
         (body : str -> list str -> list str -> St -> M FS St) (s : St) : M FS St :=
  match fuel with
  | O => fun w => (OutOfFuel, w)
  | S n =>
    fun w =>
      match fs_scandir top (fs w) with
      | Failure _ => (Ok s, w)
      | Success (dirs, files) =>
        (emit (Yield top dirs files) ;;
         s' <- body top dirs files s ;;
         for_each dirs (fun d s'' => os_walk n (os_path_join top d) body s'') s') w
      end
  end.
End Primitives.

(** ** Command lines ([argparse]) *)

(** The namespace [parse_args] returns: [command] is [None] when no
    command was given. *)
Record Namespace : Type := mkNamespace {
  command : option str;
  project_path : str
}.

Definition is_option (a : str) : bool := startswith a (u "-").

Definition is_help (a : str) : bool := str_eqb a (u "-h") || str_eqb a (u "--help").

(** A parser with one optional sub-command slot (dest [command]); every
    sub-command takes the one positional [project_path].  An error prints
    the usage and the message on stderr and exits with status 2; [-h]
    prints the help and exits with status 0.  Arguments that look like
    options, other than the help flags, are rejected. *)
Definition parse_args {FS} (commands : list str) (argv : list str) : M FS Namespace :=
  match argv with
  | [] => ret (mkNamespace None [])
  | c :: rest =>
    if is_help c then emit PrintHelp ;; raise (SystemExit 0)
    else if is_option c then
      emit (ArgError (u "unrecognized arguments: " ++ c)) ;; raise (SystemExit 2)
    else if negb (str_in c commands) then
      emit (ArgError (u "argument command: invalid choice: " ++ c)) ;;
      raise (SystemExit 2)
    else
      match rest with
      | [] =>
        emit (ArgError (u "the following arguments are required: project_path")) ;;
        raise (SystemExit 2)
      | [p] =>
        if is_help p then emit PrintHelp ;; raise (SystemExit 0)
        else if is_option p then
          emit (ArgError (u "unrecognized arguments: " ++ p)) ;; raise (SystemExit 2)
        else ret (mkNamespace (Some c) p)
      | _ :: extra :: _ =>
        emit (ArgError (u "unrecognized arguments: " ++ extra)) ;; raise (SystemExit 2)
      end
  end.

(** ** cli.py *)

Module Cli.
Section WithOS.
Context {FS : Type} {os : OS FS}.

(** [template] with [{question}] filled in, as [chain] sends it. *)
Definition template (question : str) : str :=
  u "Instructions: " ++ question ++ NL
  ++ u "Generate maximum test cases possible for the above code. Make sure you have done the necessary imports as all the files will be outside the tests folder. Strictly give only final code as output. Don't give things other than python code in output."
  ++ NL ++ u "Answer: .".

Definition chain_invoke (question : str) : M FS str := model_invoke (template question).

Definition clean_code (text : str) : M FS str :=
  logger DEBUG (u "Cleaning up code block markers...") ;;
  ret (clean_code_value text).

(** The local [question] of [generate_test_cases]. *)
Definition question (code file_name : str) : str :=
  u "Generate pytest cases for the following Python file: " ++ file_name
  ++ NL ++ NL ++ code.

Definition generate_test_cases (code file_name : str) : M FS str :=
  logger DEBUG (u "Generating test cases...") ;;
  try_except
    (response <- chain_invoke (question code file_name) ;;
     logger INFO (u "Test cases generated successfully.") ;;
     clean_code response)
    (fun e =>
       logger ERROR (u "Error generating test cases: " ++ e) ;;
       ret (u "Error: " ++ e)).

Definition tests_folder (project_path : str) : str :=
  os_path_join project_path (u "tests").

Definition test_file_name (file_name : str) : str :=
  u "test_" ++ fst (splitext file_name) ++ u ".py".

Definition test_file_path (file_name project_path : str) : str :=
  os_path_join (tests_folder project_path) (test_file_name file_name).

Definition save_test_cases (file_name test_code project_path : str) : M FS unit :=
  os_makedirs (tests_folder project_path) ;;
  try_except
    (write_file (test_file_path file_name project_path) test_code ;;
     logger INFO (u "Test cases saved to " ++ test_file_path file_name project_path))
    (fun e =>
       logger ERROR (u "Error saving test cases for " ++ file_name ++ u ": " ++ e)).

(** The body of the inner loop of [process_project], for one entry
    [file] of the listing of [root]. *)
Definition process_file (folder_path root file : str) : M FS unit :=
  let file_path := os_path_join root file in
  if endswith file (u ".py") then
    try_except
      (code <- read_file file_path ;;
       logger INFO (u "Read file: " ++ file_path) ;;
       test_code <- generate_test_cases code file ;;
       save_test_cases file test_code folder_path)
      (fun e => logger ERROR (u "Error processing " ++ file_path ++ u ": " ++ e))
  else ret tt.

(** The body of the outer loop: one yield of [os.walk]. *)
Definition process_listing (folder_path root : str) (files : list str) : M FS unit :=
  relative_root <- os_path_relpath root folder_path ;;
  for_each files (fun file _ => process_file folder_path root file) tt.

Definition process_project (fuel : nat) (folder_path : str) : M FS unit :=
  logger DEBUG (u "Scanning folder structure at: " ++ folder_path) ;;
  os_walk fuel folder_path
          (fun root _ files _ => process_listing folder_path root files) tt.

Definition pytest_ini_template : str :=
  u "Generate a pytest.ini file with the following configurations:" ++ NL
  ++ u "    1. testpaths: The folder where the tests are located (tests)." ++ NL
  ++ u "    2. addopts: Verbose output (-v)." ++ NL
  ++ u "    3. markers: Define smoke and regression markers." ++ NL
  ++ u "    4. Enable log capturing with level INFO and format 'asctime - levelname - message'."
  ++ NL ++ u "    ".

Definition create_pytest_ini_with_llm (tests_folder : str) : M FS unit :=
  logger INFO (u "Creating pytest.ini using LLM...") ;;
  try_except
    (response <- chain_invoke pytest_ini_template ;;
     pytest_ini_content <- clean_code response ;;
     let pytest_ini_path := os_path_join tests_folder (u "pytest.ini") in
     write_file pytest_ini_path pytest_ini_content ;;
     logger INFO (u "pytest.ini saved to " ++ pytest_ini_path))
    (fun e => logger ERROR (u "Error creating pytest.ini: " ++ e)).

Definition validate_tests (test_folder : str) : M FS (str * str * Z) :=
  logger DEBUG (u "Running pytest for folder: " ++ test_folder) ;;
  result <- subprocess_run_pytest test_folder ;;
  logger INFO (u "Pytest execution completed.") ;;
  ret result.

Definition generate_tests_cli (fuel : nat) (project_path : str) : M FS unit :=
  present <- os_path_exists project_path ;;
  if negb present then
    logger ERROR (u "Path " ++ project_path ++ u " does not exist.")
  else
    try_except
      (process_project fuel project_path ;;
       create_pytest_ini_with_llm (os_path_join project_path (u "tests")) ;;
       logger INFO (u "Test cases generated and saved in the tests folder."))
      (fun e => logger ERROR (u "Error generating tests: " ++ e)).

Definition validate_tests_cli (project_path : str) : M FS unit :=
  let tests_path := os_path_join project_path (u "tests") in
  present <- os_path_exists tests_path ;;
  if negb present then
    logger ERROR (u "Tests folder " ++ tests_path ++ u " does not exist.")
  else
    try_except
      (validation_result <- validate_tests tests_path ;;
       let '(stdout, stderr, _) := validation_result in
       print (u "Validation Results:") ;;
       print stdout ;;
       if negb (is_empty stderr) then
         print (NL ++ u "Errors:") ;;
         print stderr
       else ret tt)
      (fun e => logger ERROR (u "Error validating tests: " ++ e)).

Definition commands : list str := [u "generate-tests"; u "validate-tests"].

Definition main (fuel : nat) (argv : list str) : M FS unit :=
  args <- parse_args commands argv ;;
  match command args with
  | Some c =>
    if str_eqb c (u "generate-tests") then generate_tests_cli fuel (project_path args)
    else if str_eqb c (u "validate-tests") then validate_tests_cli (project_path args)
    else emit PrintHelp
  | None => emit PrintHelp
  end.
End WithOS.
End Cli.

(** ** markd.py *)

Module Markd.
Section WithOS.
Context {FS : Type} {os : OS FS}.

Definition template (question : str) : str :=
  u "Instructions: " ++ question ++ NL
  ++ u "Generate a detailed markdown document summarizing the Python project structure."
  ++ NL ++ u "Answer with a markdown document.".

Definition chain_invoke (question : str) : M FS str := model_invoke (template question).

Definition clean_code (text : str) : M FS str :=
  logger DEBUG (u "Cleaning up generated content...") ;;
  ret (clean_code_value text).

(** The local [question] of [generate_markdown_document]. *)
Definition question (code file_name : str) : str :=
  u "Generate markdown documentation for the following Python file: " ++ file_name
  ++ NL ++ NL ++ code.

Definition generate_markdown_document (code file_name relative_root : str) : M FS str :=
  logger DEBUG (u "Generating markdown document...") ;;
  try_except
    (response <- chain_invoke (question code file_name) ;;
     logger INFO (u "Markdown document generated for " ++ file_name ++ u ".") ;;
     cleaned <- clean_code response ;;
     ret (u "### " ++ file_name ++ NL ++ NL ++ cleaned ++ NL))
    (fun e =>
       logger ERROR (u "Error generating markdown document: " ++ e) ;;
       ret (u "Error: " ++ e)).

Definition markdown_folder (project_path : str) : str :=
  os_path_join project_path (u "docs").

Definition markdown_file_path (project_path : str) : str :=
  os_path_join (markdown_folder project_path) (u "project_documentation.md").

Definition save_markdown_document (markdown_content project_path : str) : M FS unit :=
  os_makedirs (markdown_folder project_path) ;;
  try_except
    (write_file (markdown_file_path project_path) markdown_content ;;
     logger INFO (u "Markdown document saved to " ++ markdown_file_path project_path))
    (fun e => logger ERROR (u "Error saving markdown document: " ++ e)).

(** The body of the inner loop of [process_project]; [project_summary]
    is the list the loop appends to. *)
Definition process_file (root relative_root file : str) (project_summary : list str)
  : M FS (list str) :=
  let file_path := os_path_join root file in
  if endswith file (u ".py") then
    try_except
      (code <- read_file file_path ;;
       logger INFO (u "Read file: " ++ file_path) ;;
       file_doc <- generate_markdown_document code file relative_root ;;
       ret (project_summary ++ [file_doc]))
      (fun e =>
         logger ERROR (u "Error processing " ++ file_path ++ u ": " ++ e) ;;
         ret project_summary)
  else ret project_summary.

Definition directory_heading (relative_root : str) : str :=
  u "## Directory: " ++ relative_root ++ NL.

(** The body of the outer loop: one yield of [os.walk]. *)
Definition process_listing (folder_path root : str) (files : list str)
           (project_summary : list str) : M FS (list str) :=
  relative_root <- os_path_relpath root folder_path ;;
  for_each files (process_file root relative_root)
           (project_summary ++ [directory_heading relative_root]).

(** The list [project_summary] when the traversal is over. *)
Definition summarize_project (fuel : nat) (folder_path : str) : M FS (list str) :=
  logger DEBUG (u "Scanning folder structure at: " ++ folder_path) ;;
  os_walk fuel folder_path
          (fun root _ files summary => process_listing folder_path root files summary) [].

Definition process_project (fuel : nat) (folder_path : str) : M FS unit :=
  project_summary <- summarize_project fuel folder_path ;;
  let markdown_content := join NL project_summary in
  save_markdown_document markdown_content folder_path.

Definition generate_docs_cli (fuel : nat) (project_path : str) : M FS unit :=
  present <- os_path_exists project_path ;;
  if negb present then
    logger ERROR (u "Path " ++ project_path ++ u " does not exist.")
  else
    try_except
      (process_project fuel project_path ;;
       logger INFO (u "Markdown documentation generated and saved in the docs folder."))
      (fun e => logger ERROR (u "Error generating documentation: " ++ e)).

Definition commands : list str := [u "generate-docs"].

Definition main (fuel : nat) (argv : list str) : M FS unit :=
  args <- parse_args commands argv ;;
  match command args with
  | Some c =>
    if str_eqb c (u "generate-docs") then generate_docs_cli fuel (project_path args)
    else emit PrintHelp
  | None => emit PrintHelp
  end.
End WithOS.
End Markd.

(** ** A small file system in memory

    One instance of the environment, used to run the two programs on
    concrete projects: a table from paths, as the programs spell them, to
    directories and files, in creation order. *)

Module Sim.
Inductive Node : Type :=
| Dir
| File (content : result str).

Definition FS : Type := list (str * Node).

Fixpoint lookup (p : str) (t : FS) : option Node :=
  match t with
  | [] => None
  | (k, n) :: t' => if str_eqb k p then Some n else lookup p t'
  end.

(** Replace the entry of [p], or append one. *)
Fixpoint upsert (p : str) (n : Node) (t : FS) : FS :=
  match t with
  | [] => [(p, n)]
  | (k, m) :: t' => if str_eqb k p then (k, n) :: t' else (k, m) :: upsert p n t'
  end.

(** The name under which [k] is listed in directory [top], if it is. *)
Definition child_name (top k : str) : option str :=
  let prefix := os_path_join top [] in
  if startswith k prefix then
    let name := skipn (length prefix) k in
    if is_empty name || existsb (N.eqb SEP) name then None else Some name
  else None.

Definition children (top : str) (t : FS) : list (str * Node) :=
  flat_map (fun '(k, n) => match child_name top k with
                           | Some name => [(name, n)]
                           | None => []
                           end) t.

Definition is_dir (e : str * Node) : bool :=
  match snd e with Dir => true | File _ => false end.

Definition scandir (top : str) (t : FS) : result (list str * list str) :=
  match lookup top t with
  | Some Dir =>
    let entries := children top t in
    Success (map fst (filter is_dir entries),
             map fst (filter (fun e => negb (is_dir e)) entries))
  | Some (File _) => Failure (u "[Errno 20] Not a directory: " ++ top)
  | None => Failure (u "[Errno 2] No such file or directory: " ++ top)
  end.

Definition read (p : str) (t : FS) : result str :=
  match lookup p t with
  | Some (File content) => content
  | Some Dir => Failure (u "[Errno 21] Is a directory: " ++ p)
  | None => Failure (u "[Errno 2] No such file or directory: " ++ p)
  end.

Definition makedirs (p : str) (t : FS) : result unit * FS :=
  match lookup p t with
  | Some Dir => (Success tt, t)
  | Some (File _) => (Failure (u "[Errno 17] File exists: " ++ p), t)
  | None => (Success tt, upsert p Dir t)
  end.

Definition write (p content : str) (t : FS) : result unit * FS :=
  match lookup p t with
  | Some Dir => (Failure (u "[Errno 21] Is a directory: " ++ p), t)
  | _ => (Success tt, upsert p (File (Success content)) t)
  end.

Definition path_exists (p : str) (t : FS) : bool :=
  negb (is_empty p) && match lookup p t with Some _ => true | None => false end.

(** [root] relative to [start], for the roots a walk from [start] yields. *)
Definition relpath (root start : str) (_ : FS) : str :=
  let prefix := os_path_join start [] in
  let rel := skipn (length prefix) root in
  if startswith root prefix && negb (is_empty rel) then rel else u ".".

(** A test runner that finds nothing to run. *)
Definition pytest (folder : str) (t : FS) : result (str * str * Z) * FS :=
  (Success (u "no tests ran", [], 5%Z), t).

Definition os : OS FS :=
  {| fs_exists := path_exists;
     fs_scandir := scandir;
     fs_read := read;
     fs_makedirs := makedirs;
     fs_write := write;
     fs_relpath := relpath;
     fs_pytest := pytest |}.

Definition world (t : FS) (model : nat -> str -> result str) : World FS :=
  mkWorld t model 0%nat [].
End Sim.

#[export] Existing Instance Sim.os.

(** Two models: one that answers with a fenced block, one that is down. *)
Definition fenced_model (_ : nat) (_ : str) : result str :=
  Success (u "```python" ++ NL ++ u "assert True" ++ NL ++ u "```").

Definition broken_model (_ : nat) (_ : str) : result str :=
  Failure (u "connection refused").

(** A project with [a.py] and [b.py] at the top and a second [a.py] in
    [sub]. *)
Definition demo_project : Sim.FS :=
  [ (u "proj", Sim.Dir);
    (u "proj/a.py", Sim.File (Success (u "x = 1")));
    (u "proj/b.py", Sim.File (Success (u "y = 2")));
    (u "proj/notes.txt", Sim.File (Success (u "todo")));
    (u "proj/sub", Sim.Dir);
    (u "proj/sub/a.py", Sim.File (Success (u "z = 3"))) ].


(** A model whose answer tells which call it answers. *)
Definition counting_model (n : nat) (_ : str) : result str :=
  Success (u "# answer " ++ [48 + N.of_nat n]).

(** A working directory that holds a [tests] folder. *)
Definition cwd_with_tests : Sim.FS := [ (u "tests", Sim.Dir) ].

(** ** Vocabulary of the statements *)

(** The two fence markers, as the specification names them. *)
Definition is_fence_marker (s : str) : Prop := s = u "```python" \/ s = u "```".

(** [removes_fence_lines ls ks]: [ks] is [ls] without the lines whose
    trimmed content is a fence marker, every other line kept as it is and
    where it was. *)
Inductive removes_fence_lines : list str -> list str -> Prop :=
| rfl_done : removes_fence_lines [] []
| rfl_drop (l : str) (ls ks : list str) :
    is_fence_marker (strip l) ->
    removes_fence_lines ls ks -> removes_fence_lines (l :: ls) ks
| rfl_keep (l : str) (ls ks : list str) :
    ~ is_fence_marker (strip l) ->
    removes_fence_lines ls ks -> removes_fence_lines (l :: ls) (l :: ks).

(** [s] without one newline at its end, if it has one. *)
Definition without_final_newline (s : str) : str :=
  if endswith s NL then removelast s else s.

(** The filter of both traversals: [file.endswith(".py")]. *)
Definition is_source (file : str) : bool := endswith file (u ".py").

(** Projections of a trace. *)
Definition attempted_reads (t : list Event) : list str :=
  flat_map (fun e => match e with Read p _ => [p] | _ => [] end) t.

Definition successful_reads (t : list Event) : list str :=
  flat_map (fun e => match e with Read p true => [p] | _ => [] end) t.

Definition model_calls (t : list Event) : list str :=
  flat_map (fun e => match e with Invoke p _ => [p] | _ => [] end) t.

Definition makedirs_calls (t : list Event) : list str :=
  flat_map (fun e => match e with Makedirs p _ => [p] | _ => [] end) t.

Definition successful_makedirs (t : list Event) : list str :=
  flat_map (fun e => match e with Makedirs p true => [p] | _ => [] end) t.

Definition writes (t : list Event) : list (str * str) :=
  flat_map (fun e => match e with Write p c _ => [(p, c)] | _ => [] end) t.

Definition error_logs (t : list Event) : list str :=
  flat_map (fun e => match e with Log ERROR m => [m] | _ => [] end) t.

(** The source files of the listings a traversal yielded, in order. *)
Definition yielded_sources (t : list Event) : list str :=
  flat_map (fun e => match e with
                     | Yield root _ files => map (os_path_join root) (filter is_source files)
                     | _ => []
                     end) t.

(** [l] holds no line boundary. *)
Definition no_break (l : str) : Prop := forallb (fun c => negb (is_linebreak c)) l = true.

(** The list of lines without its last element when that one is empty:
    what [splitlines] recovers from a newline-joined list. *)
Fixpoint drop_final_empty (ls : list str) : list str :=
  match ls with
  | [] => []
  | [l] => if is_empty l then [] else [l]
  | l :: ls' => l :: drop_final_empty ls'
  end.

(** The world [w] after the events [evs]. *)
Definition after {FS} (w : World FS) (evs : list Event) : World FS :=
  mkWorld (fs w) (llm w) (calls w) (trace w ++ evs).

(** What one run did, whatever failed in it: the model was called once and
    the tests folder asked for once for every file that could be read, and
    a write was tried after every time the folder was there. *)
Definition accounted (evs : list Event) : Prop :=
  List.length (model_calls evs) = List.length (successful_reads evs)
  /\ List.length (makedirs_calls evs) = List.length (successful_reads evs)
  /\ List.length (writes evs) = List.length (successful_makedirs evs).

(** Case analysis on the next answer of the environment. *)
Ltac run_env :=
  repeat (cbn;
          match goal with
          | |- context [fs_read ?p ?t] => destruct (fs_read p t) eqn:?
          | |- context [llm ?w ?k ?p] => destruct (llm w k p) eqn:?
          | |- context [fs_makedirs ?p ?t] => destruct (fs_makedirs p t) as [[[]|?] ?] eqn:?
          | |- context [fs_write ?p ?c ?t] => destruct (fs_write p c t) as [[[]|?] ?] eqn:?
          end).

(** What a traversal did: every source of every listing it yielded was
    opened, in that order, and the rest is accounted for. *)
Definition traversed (evs : list Event) : Prop :=
  attempted_reads evs = yielded_sources evs /\ accounted evs.

(** The listings of the sub-directories [ds], one after the other. *)
Fixpoint walk_each {A} (walk : str -> option (list A)) (ds : list str) : option (list A) :=
  match ds with
  | [] => Some []
  | d :: ds' =>
    match walk d, walk_each walk ds' with
    | Some here, Some rest => Some (here ++ rest)
    | _, _ => None
    end
  end.

(** What [os.walk] yields on a file system that stays as it is: root,
    sub-directories and other entries of every directory, in traversal
    order; [None] when the tree is deeper than [fuel]. *)
Fixpoint walk_list {FS} {os : OS FS} (fuel : nat) (top : str) (t : FS)
  : option (list (str * list str * list str)) :=
  match fuel with
  | O => None
  | S n =>
    match fs_scandir top t with
    | Failure _ => Some []
    | Success (dirs, files) =>
      match walk_each (fun d => walk_list n (os_path_join top d) t) dirs with
      | Some rest => Some ((top, dirs, files) :: rest)
      | None => None
      end
    end
  end.

(** The source files of a traversal, by name, in traversal order. *)
Definition sources_of (entries : list (str * list str * list str)) : list str :=
  flat_map (fun '(_, _, files) => filter is_source files) entries.

(** The section of one file in the document. *)
Definition file_section (file_name body : str) : str :=
  u "### " ++ file_name ++ NL ++ NL ++ body ++ NL.

Definition is_section (block : str) : bool := startswith block (u "### ").

(** A run that leaves the file system and the model alone and writes
    nothing. *)
Definition reads_only {FS} (w w' : World FS) (evs : list Event) : Prop :=
  fs w' = fs w /\ llm w' = llm w /\ trace w' = trace w ++ evs /\ writes evs = [].

(** What one listing adds to the summary: the heading of the directory and
    then the blocks of its files, which are the sections of its sources
    when those can be read and the model answers. *)
Definition listing_blocks {FS} {os : OS FS} (folder_path : str) (t : FS)
           (model : nat -> str -> result str)
           (e : str * list str * list str) (bs : list str) : Prop :=
  let '(root, _, files) := e in
  exists blocks : list str,
    bs = Markd.directory_heading (fs_relpath root folder_path t) :: blocks
    /\ ((forall f, In f files -> is_source f = true ->
                   succeeded (fs_read (os_path_join root f) t) = true) ->
        (forall k p, succeeded (model k p) = true) ->
        exists secs : list (str * str),
          map fst secs = filter is_source files
          /\ blocks = map (fun s => file_section (fst s) (snd s)) secs).

(** The listings of the demo project. *)
Definition demo_entries : list (str * list str * list str) :=
  [ (u "proj", [u "sub"], [u "a.py"; u "b.py"; u "notes.txt"]);
    (u "proj/sub", [], [u "a.py"]) ].

(** The characters of the lines [ls] and one boundary for each. *)
Definition lines_weight (ls : list str) : nat :=
  fold_right (fun l n => (List.length l + 1 + n)%nat) 0%nat ls.

(** A name of dots only, as [os.path.splitext] passes over. *)
Definition all_dots (s : str) : bool := forallb (N.eqb DOT) s.

(** What was printed on standard output, in order. *)
Definition prints (t : list Event) : list str :=
  flat_map (fun e => match e with Print m => [m] | _ => [] end) t.

(** A project whose [docs] is a file, and one whose document is a
    directory. *)
Definition project_with_docs_file : Sim.FS :=
  [ (u "p", Sim.Dir);
    (u "p/a.py", Sim.File (Success (u "x = 1")));
    (u "p/docs", Sim.File (Success [])) ].

Definition project_with_document_folder : Sim.FS :=
  [ (u "p", Sim.Dir);
    (u "p/a.py", Sim.File (Success (u "x = 1")));
    (u "p/docs", Sim.Dir);
    (u "p/docs/project_documentation.md", Sim.Dir) ].

(** A project without a source file. *)
Definition project_without_sources : Sim.FS :=
  [ (u "q", Sim.Dir);
    (u "q/README.md", Sim.File (Success (u "hello"))) ].

(** ** Lemmas on strings *)

Lemma str_eqb_eq (a b : str) : str_eqb a b = true <-> a = b.
Proof.
  revert b; induction a as [|x a IH]; intros [|y b]; simpl; split; intro H;
    try reflexivity; try discriminate.
  - apply andb_true_iff in H as [Hx Hab].
    apply N.eqb_eq in Hx. apply IH in Hab. now subst.
  - injection H as -> ->. apply andb_true_iff; split.
    + apply N.eqb_refl.
    + now apply IH.
Qed.

Lemma str_eqb_refl (a : str) : str_eqb a a = true.
Proof. now apply str_eqb_eq. Qed.

Lemma str_eqb_neq (a b : str) : str_eqb a b = false <-> a <> b.
Proof.
  split.
  - intros H E. apply str_eqb_eq in E. congruence.
  - intro H. destruct (str_eqb a b) eqn:E; [|reflexivity].
    apply str_eqb_eq in E. contradiction.
Qed.

Lemma fence_marker_spec (s : str) : str_in s fence_markers = true <-> is_fence_marker s.
Proof.
  unfold str_in, fence_markers, is_fence_marker; simpl.
  rewrite orb_false_r, orb_true_iff, !str_eqb_eq. tauto.
Qed.

Lemma keep_line_spec (l : str) : keep_line l = true <-> ~ is_fence_marker (strip l).
Proof.
  unfold keep_line. rewrite negb_true_iff, <- fence_marker_spec.
  destruct (str_in (strip l) fence_markers); split; intro H; congruence.
Qed.

Lemma filter_removes_fence_lines (ls : list str) :
  removes_fence_lines ls (filter keep_line ls).
Proof.
  induction ls as [|l ls IH]; simpl.
  - constructor.
  - destruct (keep_line l) eqn:K.
    + apply rfl_keep; [now apply keep_line_spec | exact IH].
    + apply rfl_drop; [|exact IH].
      apply fence_marker_spec. unfold keep_line in K.
      now apply negb_false_iff in K.
Qed.

(** The relation determines the kept lines. *)
Lemma removes_fence_lines_unique (ls ks ks' : list str) :
  removes_fence_lines ls ks -> removes_fence_lines ls ks' -> ks = ks'.
Proof.
  intro H; revert ks'; induction H; intros ks' H'; inversion H'; subst;
    try reflexivity; try contradiction; auto.
  f_equal; auto.
Qed.

(** *** Lines *)

Lemma splitlines_no_break_len (n : nat) :
  forall s, (List.length s <= n)%nat -> Forall no_break (splitlines s).
Proof.
  induction n as [|n IH]; intros [|c s] Hlen; simpl in *; try constructor; try lia.
  destruct (is_linebreak c) eqn:Hc.
  - constructor; [reflexivity|].
    destruct (c =? 13).
    + destruct s as [|x r]; [constructor|].
      destruct (x =? 10); apply IH; simpl in *; lia.
    + apply IH; lia.
  - assert (Hs : Forall no_break (splitlines s)) by (apply IH; lia).
    destruct (splitlines s) as [|l ls].
    + repeat constructor. unfold no_break; simpl. now rewrite Hc.
    + inversion Hs; subst. constructor; [|assumption].
      unfold no_break in *; simpl. now rewrite Hc.
Qed.

(** No line of [splitlines] contains a line boundary. *)
Lemma splitlines_no_break (s : str) : Forall no_break (splitlines s).
Proof. apply (splitlines_no_break_len (List.length s)). lia. Qed.

Lemma splitlines_app_NL (l rest : str) :
  no_break l -> splitlines (l ++ NL ++ rest) = l :: splitlines rest.
Proof.
  induction l as [|c l IH]; intro H.
  - reflexivity.
  - unfold no_break in H; simpl in H. apply andb_true_iff in H as [Hc Hl].
    apply negb_true_iff in Hc.
    change ((c :: l) ++ NL ++ rest) with (c :: (l ++ NL ++ rest)).
    cbn [splitlines]. rewrite Hc. fold splitlines. now rewrite (IH Hl).
Qed.

Lemma splitlines_single (l : str) :
  no_break l -> l <> [] -> splitlines l = [l].
Proof.
  induction l as [|c l IH]; intros H Hne; [contradiction|].
  unfold no_break in H; simpl in H. apply andb_true_iff in H as [Hc Hl].
  apply negb_true_iff in Hc.
  cbn [splitlines]. rewrite Hc. fold splitlines.
  destruct l as [|d l'].
  - reflexivity.
  - rewrite IH; [reflexivity | exact Hl | discriminate].
Qed.

(** Splitting a newline-joined list of lines gives the lines back, except
    for an empty last one. *)
Lemma splitlines_join (ls : list str) :
  Forall no_break ls -> splitlines (join NL ls) = drop_final_empty ls.
Proof.
  induction ls as [|l ls IH]; intro H; [reflexivity|].
  inversion H as [|? ? Hl Hls]; subst.
  destruct ls as [|l2 ls'].
  - simpl. destruct l as [|c l']; [reflexivity|].
    apply splitlines_single; [exact Hl | discriminate].
  - change (join NL (l :: l2 :: ls')) with (l ++ NL ++ join NL (l2 :: ls')).
    rewrite splitlines_app_NL by exact Hl.
    rewrite (IH Hls). reflexivity.
Qed.

Lemma endswith_NL_app (x j : str) : j <> [] -> endswith (x ++ j) NL = endswith j NL.
Proof.
  intro Hj. unfold endswith. rewrite rev_app_distr.
  destruct (rev j) as [|c t] eqn:E.
  - apply (f_equal (@rev char)) in E. rewrite rev_involutive in E. contradiction.
  - simpl. reflexivity.
Qed.

Lemma endswith_NL_snoc (x : str) (c : char) : endswith (x ++ [c]) NL = (c =? 10).
Proof. unfold endswith. rewrite rev_app_distr. simpl. apply andb_true_r. Qed.

Lemma no_break_not_endswith_NL (l : str) : no_break l -> endswith l NL = false.
Proof.
  intro H. destruct l as [|c l'] using rev_ind; [reflexivity|].
  rewrite endswith_NL_snoc. unfold no_break in H.
  rewrite forallb_app in H. apply andb_true_iff in H as [_ H]. simpl in H.
  rewrite andb_true_r in H. apply negb_true_iff in H.
  destruct (c =? 10) eqn:E; [|reflexivity].
  apply N.eqb_eq in E. subst. discriminate.
Qed.

Lemma without_final_newline_app (x j : str) :
  j <> [] -> without_final_newline (x ++ j) = x ++ without_final_newline j.
Proof.
  intro Hj. unfold without_final_newline. rewrite endswith_NL_app by exact Hj.
  destruct (endswith j NL); [|reflexivity]. now apply removelast_app.
Qed.

Lemma without_final_newline_id (s : str) :
  without_final_newline s = s <-> endswith s NL = false.
Proof.
  unfold without_final_newline. destruct (endswith s NL) eqn:E; split; intro H;
    try reflexivity; try discriminate.
  exfalso. destruct s as [|c s'] using rev_ind; [discriminate|].
  rewrite removelast_last in H. apply (f_equal (@List.length char)) in H.
  rewrite length_app in H. simpl in H. lia.
Qed.

Lemma join_NL_nil (l : str) (ls : list str) : join NL (l :: ls) = [] -> l = [] /\ ls = [].
Proof.
  destruct ls as [|l2 ls']; simpl; intro H.
  - now split.
  - apply app_eq_nil in H as [_ H]. discriminate.
Qed.

Lemma drop_final_empty_nil (l : str) (ls : list str) :
  drop_final_empty (l :: ls) = [] -> l = [] /\ ls = [].
Proof.
  destruct ls as [|l2 ls']; simpl; intro H.
  - destruct l; [now split | discriminate].
  - discriminate.
Qed.

(** Joining the lines without an empty last one is joining them all and
    taking one final newline away. *)
Lemma join_drop_final_empty (ls : list str) :
  Forall no_break ls ->
  join NL (drop_final_empty ls) = without_final_newline (join NL ls).
Proof.
  induction ls as [|l ls IH]; intro H; [reflexivity|].
  inversion H as [|? ? Hl Hls]; subst.
  destruct ls as [|l2 ls'].
  - simpl. destruct l as [|c l']; [reflexivity|].
    simpl is_empty. cbn [join]. symmetry. apply without_final_newline_id.
    now apply no_break_not_endswith_NL.
  - change (drop_final_empty (l :: l2 :: ls')) with (l :: drop_final_empty (l2 :: ls')).
    change (join NL (l :: l2 :: ls')) with (l ++ NL ++ join NL (l2 :: ls')).
    specialize (IH Hls).
    destruct (drop_final_empty (l2 :: ls')) as [|d ds] eqn:D.
    + apply drop_final_empty_nil in D as [-> ->]. simpl.
      unfold without_final_newline. rewrite endswith_NL_snoc. simpl.
      now rewrite removelast_last.
    + change (join NL (l :: d :: ds)) with (l ++ NL ++ join NL (d :: ds)).
      rewrite IH, !app_assoc. symmetry. apply without_final_newline_app.
      intro J. apply join_NL_nil in J as [-> ->]. discriminate.
Qed.

Lemma filter_all {A} (f : A -> bool) (l : list A) :
  Forall (fun x => f x = true) l -> filter f l = l.
Proof.
  induction 1 as [|x l Hx _ IH]; simpl; [reflexivity|]. now rewrite Hx, IH.
Qed.

Lemma drop_final_empty_Forall {P : str -> Prop} (ls : list str) :
  Forall P ls -> Forall P (drop_final_empty ls).
Proof.
  induction 1 as [|l ls Hl Hls IH]; [constructor|].
  destruct ls as [|l2 ls'].
  - simpl. destruct (is_empty l); repeat constructor; assumption.
  - change (drop_final_empty (l :: l2 :: ls')) with (l :: drop_final_empty (l2 :: ls')).
    now constructor.
Qed.

Lemma kept_lines_keep (text : str) : Forall (fun l => keep_line l = true) (kept_lines text).
Proof. apply Forall_forall. intros l H. now apply filter_In in H. Qed.

Lemma kept_lines_no_break (text : str) : Forall no_break (kept_lines text).
Proof.
  apply Forall_forall. intros l H. apply filter_In in H as [H _].
  revert l H. apply Forall_forall. apply splitlines_no_break.
Qed.

(** Cleaning a cleaned text only takes a final newline away. *)
Lemma clean_code_value_twice (text : str) :
  clean_code_value (clean_code_value text) = without_final_newline (clean_code_value text).
Proof.
  change (join NL (filter keep_line (splitlines (join NL (kept_lines text))))
          = without_final_newline (join NL (kept_lines text))).
  rewrite splitlines_join by apply kept_lines_no_break.
  rewrite filter_all by (apply drop_final_empty_Forall, kept_lines_keep).
  apply join_drop_final_empty, kept_lines_no_break.
Qed.

(** *** Trimming *)

Lemma lstrip_app_space (ws s : str) :
  forallb isspace ws = true -> lstrip (ws ++ s) = lstrip s.
Proof.
  induction ws as [|c ws IH]; simpl; intro H; [reflexivity|].
  apply andb_true_iff in H as [Hc Hws]. rewrite Hc. now apply IH.
Qed.

(** Indentation in front of a fence marker is trimmed away. *)
Lemma strip_indented_marker (indent marker : str) :
  forallb isspace indent = true -> In marker fence_markers ->
  strip (indent ++ marker) = marker.
Proof.
  intros Hws Hm. unfold strip. rewrite lstrip_app_space by exact Hws.
  destruct Hm as [<- | [<- | []]]; vm_compute; reflexivity.
Qed.

Lemma is_help_is_option (a : str) : is_help a = true -> is_option a = true.
Proof.
  unfold is_help. rewrite orb_true_iff, !str_eqb_eq. intros [-> | ->]; reflexivity.
Qed.

(** ** The sanitizer *)

(** C1. For every input text, [clean_code] (in both files) returns the
    lines of the text, without exactly those whose trimmed content is the
    opening marker or the closing marker, every other line as it was and
    in its place, joined with newlines. *)
Theorem C1_clean_code_removes_exactly_the_fence_lines :
  forall (FS : Type) (os : OS FS) (text : str) (w : World FS),
  exists kept : list str,
    removes_fence_lines (splitlines text) kept
    /\ fst (Cli.clean_code text w) = Ok (join NL kept)
    /\ fst (Markd.clean_code text w) = Ok (join NL kept).
Proof.
  intros FS os text w. exists (kept_lines text). split; [|split].
  - apply filter_removes_fence_lines.
  - reflexivity.
  - reflexivity.
Qed.

(** C2, as stated, fails: the text [a], newline, newline is cleaned to
    [a], newline, and cleaning that again gives [a]. *)
Lemma C2_counterexample :
  let text := u "a" ++ NL ++ NL in
  clean_code_value text = u "a" ++ NL
  /\ clean_code_value (clean_code_value text) = u "a"
  /\ clean_code_value (clean_code_value text) <> clean_code_value text.
Proof. vm_compute. repeat split. discriminate. Qed.

(** C2, amended. For every input text, cleaning the cleaned text takes one
    final newline away, if there is one, and changes nothing else; so
    cleaning twice is cleaning once exactly when the cleaned text does not
    end with a newline. *)
Theorem C2_clean_code_twice :
  forall text : str,
    clean_code_value (clean_code_value text)
    = without_final_newline (clean_code_value text)
    /\ (clean_code_value (clean_code_value text) = clean_code_value text
        <-> endswith (clean_code_value text) NL = false).
Proof.
  intro text. split.
  - apply clean_code_value_twice.
  - rewrite clean_code_value_twice. apply without_final_newline_id.
Qed.

(** C3, as stated, fails: an indented closing marker is a line of the
    text and is removed. *)
Lemma C3_counterexample :
  let text := u "  ```" ++ NL ++ u "x = 1" in
  In (u "  ```") (splitlines text)
  /\ ~ In (u "  ```") (kept_lines text)
  /\ clean_code_value text = u "x = 1".
Proof.
  vm_compute. split; [|split].
  - left. reflexivity.
  - intros [H | []]. discriminate.
  - reflexivity.
Qed.

(** C3, amended. A line whose trimmed content is a fence followed by an
    annotation other than the bare [python] tag is kept as it is; a fence
    marker behind indentation only is removed, because lines are compared
    after trimming. *)
Theorem C3_annotated_fences_stay_indented_fences_go :
  forall text : str,
    (forall line annotation : str,
        In line (splitlines text) ->
        strip line = u "```" ++ annotation ->
        annotation <> [] -> annotation <> u "python" ->
        In line (kept_lines text))
    /\ (forall indent marker : str,
           forallb isspace indent = true -> In marker fence_markers ->
           ~ In (indent ++ marker) (kept_lines text)).
Proof.
  intro text. split.
  - intros line annotation Hin Hstrip Hne Hpy.
    apply filter_In. split; [exact Hin|].
    apply keep_line_spec. rewrite Hstrip. intros [H | H].
    + apply Hpy. change (u "```python") with (u "```" ++ u "python") in H.
      now apply app_inv_head in H.
    + apply Hne. rewrite <- (app_nil_r (u "```")) in H at 2.
      now apply app_inv_head in H.
  - intros indent marker Hws Hm Hin.
    apply filter_In in Hin as [_ Hkeep]. apply keep_line_spec in Hkeep.
    apply Hkeep. rewrite strip_indented_marker by assumption.
    destruct Hm as [<- | [<- | []]]; [left | right]; reflexivity.
Qed.

Lemma C3_annotated_fences_stay_indented_fences_go_witness :
  In (u "```python title=demo")
     (kept_lines (u "```python title=demo" ++ NL ++ u "x = 1" ++ NL ++ u "    ```"))
  /\ ~ In (u "    " ++ u "```")
          (kept_lines (u "```python title=demo" ++ NL ++ u "x = 1" ++ NL ++ u "    ```")).
Proof.
  pose proof (C3_annotated_fences_stay_indented_fences_go
                (u "```python title=demo" ++ NL ++ u "x = 1" ++ NL ++ u "    ```"))
    as [Hkeep Hdrop].
  split.
  - apply (Hkeep (u "```python title=demo") (u "python title=demo")).
    + vm_compute. left. reflexivity.
    + vm_compute. reflexivity.
    + discriminate.
    + vm_compute. discriminate.
  - apply (Hdrop (u "    ") (u "```")).
    + vm_compute. reflexivity.
    + right. left. reflexivity.
Defined.

(** ** The commands *)

(** C6, as stated, fails for [validate-tests]: with the empty project
    path, which does not exist, the tests folder is [tests] in the working
    directory; when that exists the runner is started and no error is
    logged. *)
Lemma C6_counterexample :
  let w := Sim.world cwd_with_tests broken_model in
  fs_exists [] (fs w) = false
  /\ exists w',
      Cli.main 0 [u "validate-tests"; []] w = (Ok tt, w')
      /\ error_logs (trace w') = []
      /\ In (Subprocess (u "tests") true) (trace w').
Proof.
  split; [reflexivity|].
  eexists. split; [vm_compute; reflexivity|]. split.
  - reflexivity.
  - simpl. tauto.
Qed.

(** C6, amended. [generate-tests] and [generate-docs] with a project path
    that does not exist return with the file system as it was, no call of
    the model, and one event: the error about the missing path.
    [validate-tests] looks at the tests folder of the project instead: when
    that does not exist it returns in the same way with one error about the
    missing tests folder. *)
Theorem C6_missing_path_is_logged_and_nothing_written :
  forall (FS : Type) (os : OS FS) (w : World FS) (fuel : nat) (path : str),
    (fs_exists path (fs w) = false ->
     Cli.generate_tests_cli fuel path w
     = (Ok tt, after w [Log ERROR (u "Path " ++ path ++ u " does not exist.")])
     /\ Markd.generate_docs_cli fuel path w
        = (Ok tt, after w [Log ERROR (u "Path " ++ path ++ u " does not exist.")]))
    /\ (fs_exists (os_path_join path (u "tests")) (fs w) = false ->
        Cli.validate_tests_cli path w
        = (Ok tt, after w [Log ERROR (u "Tests folder " ++ os_path_join path (u "tests")
                                        ++ u " does not exist.")])).
Proof.
  intros FS os w fuel path. split.
  - intro H. split.
    + unfold Cli.generate_tests_cli, bind, os_path_exists. now rewrite H.
    + unfold Markd.generate_docs_cli, bind, os_path_exists. now rewrite H.
  - intro H. unfold Cli.validate_tests_cli, bind, os_path_exists. now rewrite H.
Qed.

Lemma C6_missing_path_is_logged_and_nothing_written_witness :
  let w := Sim.world demo_project fenced_model in
  Cli.generate_tests_cli 5 (u "nowhere") w
  = (Ok tt, after w [Log ERROR (u "Path " ++ u "nowhere" ++ u " does not exist.")])
  /\ Markd.generate_docs_cli 5 (u "nowhere") w
     = (Ok tt, after w [Log ERROR (u "Path " ++ u "nowhere" ++ u " does not exist.")])
  /\ Cli.validate_tests_cli (u "nowhere") w
     = (Ok tt, after w [Log ERROR (u "Tests folder " ++ os_path_join (u "nowhere") (u "tests")
                                     ++ u " does not exist.")]).
Proof.
  intro w.
  destruct (C6_missing_path_is_logged_and_nothing_written
              Sim.FS Sim.os w 5%nat (u "nowhere")) as [Hgen Hval].
  split; [|split].
  - apply Hgen. reflexivity.
  - apply Hgen. reflexivity.
  - apply Hval. reflexivity.
Defined.

(** C7, as stated, fails: an unknown command name is rejected while the
    arguments are parsed; the process exits with status 2 after a usage
    error, and the help is not printed. *)
Lemma C7_counterexample :
  let w := Sim.world demo_project fenced_model in
  Cli.main 5 [u "frobnicate"] w
  = (Raise (SystemExit 2),
     after w [ArgError (u "argument command: invalid choice: " ++ u "frobnicate")])
  /\ Markd.main 5 [u "frobnicate"] w
     = (Raise (SystemExit 2),
        after w [ArgError (u "argument command: invalid choice: " ++ u "frobnicate")]).
Proof. split; vm_compute; reflexivity. Qed.

(** C7, amended. Without a command both dispatchers print the help and
    return normally, and nothing else happens.  With a command name that
    is not known, nothing else happens either, but the parser rejects the
    name: a usage error is printed and the process exits with status 2. *)
Theorem C7_no_command_prints_help_unknown_command_exits_2 :
  forall (FS : Type) (os : OS FS) (w : World FS) (fuel : nat),
    (Cli.main fuel [] w = (Ok tt, after w [PrintHelp])
     /\ Markd.main fuel [] w = (Ok tt, after w [PrintHelp]))
    /\ (forall (name : str) (rest : list str),
           is_option name = false ->
           (str_in name Cli.commands = false ->
            Cli.main fuel (name :: rest) w
            = (Raise (SystemExit 2),
               after w [ArgError (u "argument command: invalid choice: " ++ name)]))
           /\ (str_in name Markd.commands = false ->
               Markd.main fuel (name :: rest) w
               = (Raise (SystemExit 2),
                  after w [ArgError (u "argument command: invalid choice: " ++ name)]))).
Proof.
  intros FS os w fuel. split; [split; reflexivity|].
  intros name rest Hopt.
  assert (Hhelp : is_help name = false).
  { destruct (is_help name) eqn:E; [|reflexivity].
    apply is_help_is_option in E. congruence. }
  split; intro Hin.
  - unfold Cli.main, bind, parse_args. rewrite Hhelp, Hopt, Hin. reflexivity.
  - unfold Markd.main, bind, parse_args. rewrite Hhelp, Hopt, Hin. reflexivity.
Qed.

Lemma C7_no_command_prints_help_unknown_command_exits_2_witness :
  let w := Sim.world demo_project fenced_model in
  Cli.main 5 [u "generate-docs"; u "proj"] w
  = (Raise (SystemExit 2),
     after w [ArgError (u "argument command: invalid choice: " ++ u "generate-docs")])
  /\ Markd.main 5 [u "validate-tests"; u "proj"] w
     = (Raise (SystemExit 2),
        after w [ArgError (u "argument command: invalid choice: " ++ u "validate-tests")]).
Proof.
  intro w.
  destruct (C7_no_command_prints_help_unknown_command_exits_2 Sim.FS Sim.os w 5%nat)
    as [_ Hunknown].
  split.
  - apply (Hunknown (u "generate-docs") [u "proj"]); reflexivity.
  - apply (Hunknown (u "validate-tests") [u "proj"]); reflexivity.
Defined.

(** ** Test generation *)

(** C4. When the model call fails with the message [msg],
    [generate_test_cases] returns the text [Error: msg] instead of model
    output, and the loop body of [process_project] hands that text to
    [save_test_cases], which writes it to the test file of the source and
    logs the save like any other. *)
Theorem C4_model_error_text_is_written_as_test_code :
  forall (FS : Type) (os : OS FS) (w : World FS)
         (folder_path root file code msg : str) (fs1 fs2 : FS),
    is_source file = true ->
    fs_read (os_path_join root file) (fs w) = Success code ->
    llm w (calls w) (Cli.template (Cli.question code file)) = Failure msg ->
    fs_makedirs (Cli.tests_folder folder_path) (fs w) = (Success tt, fs1) ->
    fs_write (Cli.test_file_path file folder_path) (u "Error: " ++ msg) fs1
    = (Success tt, fs2) ->
    fst (Cli.generate_test_cases code file w) = Ok (u "Error: " ++ msg)
    /\ Cli.process_file folder_path root file w
       = (Ok tt,
          mkWorld fs2 (llm w) (S (calls w))
            (trace w ++
             [ Read (os_path_join root file) true;
               Log INFO (u "Read file: " ++ os_path_join root file);
               Log DEBUG (u "Generating test cases...");
               Invoke (Cli.template (Cli.question code file)) false;
               Log ERROR (u "Error generating test cases: " ++ msg);
               Makedirs (Cli.tests_folder folder_path) true;
               Write (Cli.test_file_path file folder_path) (u "Error: " ++ msg) true;
               Log INFO (u "Test cases saved to " ++ Cli.test_file_path file folder_path) ])).
Proof.
  intros FS os w folder_path root file code msg fs1 fs2 Hsrc Hread Hllm Hmk Hwr.
  split.
  - unfold Cli.generate_test_cases, Cli.chain_invoke, model_invoke, try_except, bind,
      logger, emit. simpl. rewrite Hllm. reflexivity.
  - unfold Cli.process_file. unfold is_source in Hsrc. rewrite Hsrc.
    unfold Cli.save_test_cases, Cli.generate_test_cases, Cli.chain_invoke, model_invoke,
      read_file, os_makedirs, write_file, try_except, bind, logger, emit, set_fs.
    cbn. rewrite Hread. cbn. rewrite Hllm. cbn. rewrite Hmk. cbn.
    rewrite Hwr. cbn. rewrite <- !app_assoc. reflexivity.
Qed.

Lemma C4_model_error_text_is_written_as_test_code_witness :
  let w := Sim.world demo_project broken_model in
  fst (Cli.generate_test_cases (u "x = 1") (u "a.py") w)
  = Ok (u "Error: " ++ u "connection refused")
  /\ Sim.lookup (u "proj/tests/test_a.py")
                (fs (snd (Cli.process_file (u "proj") (u "proj") (u "a.py") w)))
     = Some (Sim.File (Success (u "Error: connection refused"))).
Proof.
  intro w.
  destruct (C4_model_error_text_is_written_as_test_code
              Sim.FS Sim.os w (u "proj") (u "proj") (u "a.py") (u "x = 1")
              (u "connection refused")
              (snd (Sim.makedirs (u "proj/tests") demo_project))
              (snd (Sim.write (u "proj/tests/test_a.py")
                              (u "Error: connection refused")
                              (snd (Sim.makedirs (u "proj/tests") demo_project)))))
    as [Hgen Hbody]; try (vm_compute; reflexivity).
  split; [exact Hgen|]. rewrite Hbody. vm_compute. reflexivity.
Defined.

Lemma accounted_app (e1 e2 : list Event) :
  accounted e1 -> accounted e2 -> accounted (e1 ++ e2).
Proof.
  unfold accounted, model_calls, successful_reads, makedirs_calls, writes,
    successful_makedirs.
  intros (A1 & B1 & C1) (A2 & B2 & C2).
  rewrite !flat_map_app, !length_app. lia.
Qed.

(** The loop body of [cli.py] never raises; it opens the file if it is a
    source, and what it does after that is accounted for. *)
Lemma cli_process_file_events {FS : Type} {os : OS FS}
      (folder_path root file : str) (w : World FS) :
  exists (w' : World FS) (evs : list Event),
    Cli.process_file folder_path root file w = (Ok tt, w')
    /\ trace w' = trace w ++ evs
    /\ attempted_reads evs = (if is_source file then [os_path_join root file] else [])
    /\ yielded_sources evs = []
    /\ accounted evs.
Proof.
  unfold Cli.process_file, is_source. destruct (endswith file (u ".py")).
  - unfold Cli.save_test_cases, Cli.generate_test_cases, Cli.clean_code, Cli.chain_invoke,
      model_invoke, read_file, os_makedirs, write_file, try_except, bind, logger, emit,
      set_fs, accounted.
    run_env; (eexists; eexists; split; [reflexivity|]); cbn; rewrite <- ?app_assoc;
      (split; [reflexivity|]); cbn; repeat split.
  - exists w, []. cbn. rewrite app_nil_r. unfold accounted. repeat split.
Qed.

Lemma bind_ok {FS A B} (m : M FS A) (k : A -> M FS B) (w w1 : World FS) (a : A) :
  m w = (Ok a, w1) -> bind m k w = k a w1.
Proof. unfold bind. now intros ->. Qed.

Lemma traversed_nil : traversed [].
Proof. repeat split. Qed.

Lemma traversed_app (e1 e2 : list Event) :
  traversed e1 -> traversed e2 -> traversed (e1 ++ e2).
Proof.
  intros [R1 A1] [R2 A2]. split; [|now apply accounted_app].
  unfold attempted_reads, yielded_sources in *. rewrite !flat_map_app. congruence.
Qed.

(** One listing: the inner loop reaches every file, whatever failed. *)
Lemma cli_process_listing_events {FS : Type} {os : OS FS}
      (folder_path root : str) (files : list str) (w : World FS) :
  exists (w' : World FS) (evs : list Event),
    Cli.process_listing folder_path root files w = (Ok tt, w')
    /\ trace w' = trace w ++ evs
    /\ attempted_reads evs = map (os_path_join root) (filter is_source files)
    /\ yielded_sources evs = []
    /\ accounted evs.
Proof.
  unfold Cli.process_listing, os_path_relpath. unfold bind at 1.
  revert w. induction files as [|file files IH]; intro w.
  - exists w, []. cbn. rewrite app_nil_r. unfold accounted. repeat split.
  - destruct (cli_process_file_events folder_path root file w)
      as (w1 & e1 & Hrun & Htr & Hreads & Hyield & Hacc).
    destruct (IH w1) as (w2 & e2 & Hrun2 & Htr2 & Hreads2 & Hyield2 & Hacc2).
    exists w2, (e1 ++ e2). cbn [for_each].
    rewrite (bind_ok _ _ _ _ _ Hrun). split; [exact Hrun2|].
    split; [rewrite Htr2, Htr; symmetry; apply app_assoc|].
    unfold attempted_reads, yielded_sources in *. rewrite !flat_map_app.
    rewrite Hreads, Hreads2, Hyield, Hyield2.
    split; [|split; [reflexivity | now apply accounted_app]].
    cbn [filter]. destruct (is_source file); reflexivity.
Qed.

(** The sub-directories of one listing, each walked by [walk]. *)
Lemma for_each_traversed {FS : Type} (walk : str -> unit -> M FS unit) (dirs : list str) :
  (forall (d : str) (s : unit) (w : World FS),
      exists (o : outcome unit) (w' : World FS) (evs : list Event),
        walk d s w = (o, w') /\ (forall e, o <> Raise e)
        /\ trace w' = trace w ++ evs /\ traversed evs) ->
  forall (s : unit) (w : World FS),
  exists (o : outcome unit) (w' : World FS) (evs : list Event),
    for_each dirs walk s w = (o, w') /\ (forall e, o <> Raise e)
    /\ trace w' = trace w ++ evs /\ traversed evs.
Proof.
  intro Hwalk. induction dirs as [|d dirs IH]; intros s w.
  - exists (Ok s), w, []. cbn. rewrite app_nil_r.
    repeat split; discriminate.
  - destruct (Hwalk d s w) as (o1 & w1 & e1 & Hrun & Hno & Htr & Htrav).
    cbn [for_each]. unfold bind. rewrite Hrun.
    destruct o1 as [s1|e|].
    + destruct (IH s1 w1) as (o2 & w2 & e2 & Hrun2 & Hno2 & Htr2 & Htrav2).
      exists o2, w2, (e1 ++ e2). split; [exact Hrun2|]. split; [exact Hno2|].
      split; [rewrite Htr2, Htr; symmetry; apply app_assoc | now apply traversed_app].
    + exfalso. now apply (Hno e).
    + exists OutOfFuel, w1, e1. repeat split; try assumption; try discriminate;
        apply Htrav.
Qed.

(** The traversal of [cli.py]: no failure stops it. *)
Lemma cli_walk_traversed {FS : Type} {os : OS FS} (folder_path : str) (fuel : nat) :
  forall (top : str) (s : unit) (w : World FS),
  exists (o : outcome unit) (w' : World FS) (evs : list Event),
    os_walk fuel top (fun root _ files _ => Cli.process_listing folder_path root files) s w
    = (o, w')
    /\ (forall e, o <> Raise e)
    /\ trace w' = trace w ++ evs /\ traversed evs.
Proof.
  induction fuel as [|n IH]; intros top s w.
  - exists OutOfFuel, w, []. cbn. rewrite app_nil_r.
    repeat split; discriminate.
  - cbn [os_walk]. destruct (fs_scandir top (fs w)) as [[dirs files]|msg].
    + set (w0 := after w [Yield top dirs files]).
      destruct (cli_process_listing_events folder_path top files w0)
        as (w1 & e1 & Hrun & Htr & Hreads & Hyield & Hacc).
      destruct (for_each_traversed
                  (fun d s'' => os_walk n (os_path_join top d)
                                        (fun root _ files _ =>
                                           Cli.process_listing folder_path root files) s'')
                  dirs (fun d s'' w => IH (os_path_join top d) s'' w) tt w1)
        as (o2 & w2 & e2 & Hrun2 & Hno2 & Htr2 & Htrav2).
      exists o2, w2, (([Yield top dirs files] ++ e1) ++ e2).
      split.
      { unfold bind at 1. unfold emit. fold w0.
        rewrite (bind_ok _ _ _ _ _ Hrun). exact Hrun2. }
      split; [exact Hno2|]. split.
      { rewrite Htr2, Htr. subst w0. cbn. now rewrite <- !app_assoc. }
      apply traversed_app; [|exact Htrav2].
      split.
      * unfold attempted_reads, yielded_sources in *. rewrite !flat_map_app.
        rewrite Hreads, Hyield. cbn. now rewrite !app_nil_r.
      * apply accounted_app; [repeat split | exact Hacc].
    + exists (Ok s), w, []. rewrite app_nil_r. repeat split; discriminate.
Qed.

(** C5. In every run of test generation, whatever the model, the reads and
    the writes do: no exception leaves [process_project]; every source
    file of every listing the traversal yields is opened, in traversal
    order; the model is called and the tests folder asked for once for
    every file that could be read; and a write is tried every time the
    folder was there.  So a failure on one file takes nothing away from
    the files after it. *)
Theorem C5_failure_on_one_file_does_not_stop_the_run :
  forall (FS : Type) (os : OS FS) (fuel : nat) (folder_path : str) (w : World FS),
  exists (o : outcome unit) (w' : World FS) (evs : list Event),
    Cli.process_project fuel folder_path w = (o, w')
    /\ (forall e, o <> Raise e)
    /\ trace w' = trace w ++ evs
    /\ attempted_reads evs = yielded_sources evs
    /\ List.length (model_calls evs) = List.length (successful_reads evs)
    /\ List.length (makedirs_calls evs) = List.length (successful_reads evs)
    /\ List.length (writes evs) = List.length (successful_makedirs evs).
Proof.
  intros FS os fuel folder_path w. unfold Cli.process_project.
  set (w0 := after w [Log DEBUG (u "Scanning folder structure at: " ++ folder_path)]).
  destruct (cli_walk_traversed folder_path fuel folder_path tt w0)
    as (o & w' & evs & Hrun & Hno & Htr & Hreads & Hacc).
  exists o, w', ([Log DEBUG (u "Scanning folder structure at: " ++ folder_path)] ++ evs).
  split; [unfold bind at 1; exact Hrun|]. split; [exact Hno|].
  split; [rewrite Htr; subst w0; cbn; now rewrite <- app_assoc|].
  destruct Hacc as (A & B & C). cbn. repeat split; assumption.
Qed.

(** ** Output names *)

Lemma os_path_join_inj (a b1 b2 : str) :
  startswith b1 [SEP] = false -> startswith b2 [SEP] = false ->
  os_path_join a b1 = os_path_join a b2 -> b1 = b2.
Proof.
  unfold os_path_join. intros -> ->.
  destruct (is_empty a || endswith a [SEP]); intro H.
  - now apply app_inv_head in H.
  - apply app_inv_head in H. now apply app_inv_head in H.
Qed.

Lemma test_file_name_inj (f1 f2 : str) :
  Cli.test_file_name f1 = Cli.test_file_name f2 <-> fst (splitext f1) = fst (splitext f2).
Proof.
  unfold Cli.test_file_name. split; intro H.
  - apply app_inv_head in H. now apply app_inv_tail in H.
  - now rewrite H.
Qed.

(** C9, as stated, fails: in one run over a project with [a.py] at the top
    and another [a.py] in [sub], both are read and both are written to
    [tests/test_a.py]; the answer for the first is lost. *)
Lemma C9_counterexample :
  let w' := snd (Cli.process_project 5 (u "proj") (Sim.world demo_project counting_model)) in
  attempted_reads (trace w') = [u "proj/a.py"; u "proj/b.py"; u "proj/sub/a.py"]
  /\ map fst (writes (trace w'))
     = [u "proj/tests/test_a.py"; u "proj/tests/test_b.py"; u "proj/tests/test_a.py"]
  /\ Sim.lookup (u "proj/tests/test_a.py") (fs w')
     = Some (Sim.File (Success (u "# answer 2"))).
Proof. vm_compute. repeat split. Qed.

(** The loop body of [cli.py] writes at most once, to the path made from
    the name of the file. *)
Lemma cli_process_file_writes {FS : Type} {os : OS FS}
      (folder_path root file : str) (w : World FS) :
  exists (w' : World FS) (evs : list Event),
    Cli.process_file folder_path root file w = (Ok tt, w')
    /\ trace w' = trace w ++ evs
    /\ (writes evs = []
        \/ exists content, writes evs = [(Cli.test_file_path file folder_path, content)]).
Proof.
  unfold Cli.process_file. destruct (endswith file (u ".py")).
  - unfold Cli.save_test_cases, Cli.generate_test_cases, Cli.clean_code, Cli.chain_invoke,
      model_invoke, read_file, os_makedirs, write_file, try_except, bind, logger, emit,
      set_fs.
    run_env; (eexists; eexists; split; [reflexivity|]); cbn; rewrite <- ?app_assoc;
      (split; [reflexivity|]); cbn; try (left; reflexivity); right; eexists; reflexivity.
  - exists w, []. cbn. rewrite app_nil_r. split; [reflexivity|]. split; [reflexivity|].
    now left.
Qed.

(** C9, amended. Each source file is written at most once, and the path
    is made from the run's folder and the name of the file alone:
    [tests/test_<stem>.py], whatever directory the file is in.  Two files
    are written to the same path exactly when their names have the same
    stem; files of the same name in different directories do. *)
Theorem C9_output_path_depends_on_the_file_name_only :
  forall (FS : Type) (os : OS FS) (folder_path : str),
    (forall (root file : str) (w : World FS),
        exists (w' : World FS) (evs : list Event),
          Cli.process_file folder_path root file w = (Ok tt, w')
          /\ trace w' = trace w ++ evs
          /\ (writes evs = []
              \/ exists content,
                  writes evs = [(Cli.test_file_path file folder_path, content)]))
    /\ (forall file1 file2 : str,
           Cli.test_file_path file1 folder_path = Cli.test_file_path file2 folder_path
           <-> fst (splitext file1) = fst (splitext file2)).
Proof.
  intros FS os folder_path. split.
  - intros root file w. apply cli_process_file_writes.
  - intros file1 file2. rewrite <- test_file_name_inj. unfold Cli.test_file_path.
    split; intro H.
    + apply os_path_join_inj in H; [exact H | reflexivity | reflexivity].
    + now rewrite H.
Qed.

(** ** Documentation generation *)

Lemma reads_only_refl {FS} (w : World FS) : reads_only w w [].
Proof. unfold reads_only. rewrite app_nil_r. repeat split. Qed.

Lemma reads_only_trans {FS} (w w1 w2 : World FS) (e1 e2 : list Event) :
  reads_only w w1 e1 -> reads_only w1 w2 e2 -> reads_only w w2 (e1 ++ e2).
Proof.
  unfold reads_only. intros (F1 & L1 & T1 & W1) (F2 & L2 & T2 & W2).
  repeat split; try congruence.
  - rewrite T2, T1. symmetry. apply app_assoc.
  - unfold writes in *. rewrite flat_map_app, W1, W2. reflexivity.
Qed.

Lemma startswith_app (p s : str) : startswith (p ++ s) p = true.
Proof. induction p as [|c p IH]; simpl; [reflexivity|]. now rewrite N.eqb_refl. Qed.

Lemma is_section_file_section (file body : str) : is_section (file_section file body) = true.
Proof. apply startswith_app. Qed.

Lemma is_section_directory_heading (rel : str) :
  is_section (Markd.directory_heading rel) = false.
Proof. reflexivity. Qed.

(** The loop body of [markd.py]: it appends to the summary and only
    reads; a source that can be read, with a model that answers, adds the
    section of that file, and an entry that is no source adds nothing. *)
Lemma markd_process_file_spec {FS : Type} {os : OS FS}
      (root relative_root file : str) (summary : list str) (w : World FS) :
  exists (w' : World FS) (evs : list Event) (blocks : list str),
    Markd.process_file root relative_root file summary w = (Ok (summary ++ blocks), w')
    /\ reads_only w w' evs
    /\ (is_source file = false -> blocks = [])
    /\ (is_source file = true ->
        succeeded (fs_read (os_path_join root file) (fs w)) = true ->
        (forall k p, succeeded (llm w k p) = true) ->
        exists body, blocks = [file_section file body]).
Proof.
  unfold Markd.process_file, is_source. destruct (endswith file (u ".py")).
  - unfold Markd.generate_markdown_document, Markd.clean_code, Markd.chain_invoke,
      model_invoke, read_file, try_except, bind, logger, emit, ret, reads_only.
    run_env.
    + eexists; eexists; exists [file_section file (clean_code_value a0)].
      split; [reflexivity|]. cbn. rewrite <- ?app_assoc.
      repeat split; try discriminate. intros _ _ _. eexists; reflexivity.
    + eexists; eexists; exists [u "Error: " ++ msg].
      split; [reflexivity|]. cbn. rewrite <- ?app_assoc.
      repeat split; try discriminate. intros _ _ Hm.
      match goal with H : llm _ _ _ = Failure _ |- _ =>
        specialize (Hm (calls w) (Markd.template (Markd.question a file)));
        rewrite H in Hm; discriminate end.
    + eexists; eexists; exists [].
      split; [rewrite app_nil_r; reflexivity|]. cbn. rewrite <- ?app_assoc.
      repeat split; try discriminate.
  - exists w, [], []. unfold ret. rewrite app_nil_r.
    split; [reflexivity|]. split; [apply reads_only_refl|]. split; [reflexivity|discriminate].
Qed.

Lemma markd_files_spec {FS : Type} {os : OS FS} (root relative_root : str) (files : list str) :
  forall (summary : list str) (w : World FS),
  exists (w' : World FS) (evs : list Event) (blocks : list str),
    for_each files (Markd.process_file root relative_root) summary w
    = (Ok (summary ++ blocks), w')
    /\ reads_only w w' evs
    /\ ((forall f, In f files -> is_source f = true ->
                   succeeded (fs_read (os_path_join root f) (fs w)) = true) ->
        (forall k p, succeeded (llm w k p) = true) ->
        exists secs : list (str * str),
          map fst secs = filter is_source files
          /\ blocks = map (fun s => file_section (fst s) (snd s)) secs).
Proof.
  induction files as [|file files IH]; intros summary w.
  - exists w, [], []. cbn. unfold ret. rewrite app_nil_r.
    split; [reflexivity|]. split; [apply reads_only_refl|].
    intros _ _. exists []. split; reflexivity.
  - destruct (markd_process_file_spec root relative_root file summary w)
      as (w1 & e1 & b1 & Hrun1 & Hro1 & Hskip & Hsec).
    destruct (IH (summary ++ b1) w1) as (w2 & e2 & b2 & Hrun2 & Hro2 & Hsecs).
    exists w2, (e1 ++ e2), (b1 ++ b2). cbn [for_each].
    rewrite (bind_ok _ _ _ _ _ Hrun1), Hrun2, <- app_assoc.
    split; [reflexivity|]. split; [now apply (reads_only_trans w w1 w2)|].
    intros Hread Hmodel. destruct Hro1 as (Hfs & Hllm & _).
    assert (Hread1 : forall f, In f files -> is_source f = true ->
                               succeeded (fs_read (os_path_join root f) (fs w1)) = true).
    { intros f Hin Hsrc. rewrite Hfs. apply Hread; [now right | exact Hsrc]. }
    assert (Hmodel1 : forall k p, succeeded (llm w1 k p) = true).
    { intros k p. rewrite Hllm. apply Hmodel. }
    destruct (Hsecs Hread1 Hmodel1) as (secs & Hnames & Hblocks).
    cbn [filter]. destruct (is_source file) eqn:Hsrc.
    + assert (Hfile : succeeded (fs_read (os_path_join root file) (fs w)) = true).
      { apply Hread; [now left | exact Hsrc]. }
      destruct (Hsec eq_refl Hfile Hmodel) as (body & ->).
      exists ((file, body) :: secs). cbn. now rewrite Hnames, Hblocks.
    + rewrite (Hskip eq_refl). exists secs. now split.
Qed.

Lemma markd_process_listing_spec {FS : Type} {os : OS FS}
      (folder_path root : str) (dirs files : list str) (summary : list str) (w : World FS) :
  exists (w' : World FS) (evs : list Event) (bs : list str),
    Markd.process_listing folder_path root files summary w = (Ok (summary ++ bs), w')
    /\ reads_only w w' evs
    /\ listing_blocks folder_path (fs w) (llm w) (root, dirs, files) bs.
Proof.
  unfold Markd.process_listing, os_path_relpath. unfold bind at 1.
  destruct (markd_files_spec root (fs_relpath root folder_path (fs w)) files
              (summary ++ [Markd.directory_heading (fs_relpath root folder_path (fs w))]) w)
    as (w' & evs & blocks & Hrun & Hro & Hsecs).
  exists w', evs, (Markd.directory_heading (fs_relpath root folder_path (fs w)) :: blocks).
  rewrite Hrun, <- app_assoc. split; [reflexivity|]. split; [exact Hro|].
  exists blocks. split; [reflexivity | exact Hsecs].
Qed.

Lemma walk_each_spec {FS : Type} {os : OS FS} (folder_path : str) (t : FS)
      (model : nat -> str -> result str)
      (walk : str -> list str -> M FS (list str))
      (list_of : str -> option (list (str * list str * list str))) :
  (forall (d : str) (entries : list (str * list str * list str))
          (summary : list str) (w : World FS),
      fs w = t -> llm w = model -> list_of d = Some entries ->
      exists (w' : World FS) (evs : list Event) (bss : list (list str)),
        walk d summary w = (Ok (summary ++ concat bss), w')
        /\ reads_only w w' evs
        /\ Forall2 (listing_blocks folder_path t model) entries bss) ->
  forall (dirs : list str) (entries : list (str * list str * list str))
         (summary : list str) (w : World FS),
    fs w = t -> llm w = model -> walk_each list_of dirs = Some entries ->
    exists (w' : World FS) (evs : list Event) (bss : list (list str)),
      for_each dirs walk summary w = (Ok (summary ++ concat bss), w')
      /\ reads_only w w' evs
      /\ Forall2 (listing_blocks folder_path t model) entries bss.
Proof.
  intro Hwalk. induction dirs as [|d dirs IH]; intros entries summary w Hfs Hllm Hlist.
  - injection Hlist as <-. exists w, [], []. cbn. unfold ret. rewrite app_nil_r.
    split; [reflexivity|]. split; [apply reads_only_refl | constructor].
  - cbn [walk_each] in Hlist.
    destruct (list_of d) as [here|] eqn:Hd; [|discriminate].
    destruct (walk_each list_of dirs) as [rest|] eqn:Hrest; [|discriminate].
    injection Hlist as <-.
    destruct (Hwalk d here summary w Hfs Hllm Hd) as (w1 & e1 & bss1 & Hrun1 & Hro1 & HR1).
    destruct Hro1 as (Hfs1 & Hllm1 & Htr1 & Hw1).
    assert (Hfs' : fs w1 = t) by congruence.
    assert (Hllm' : llm w1 = model) by congruence.
    destruct (IH rest (summary ++ concat bss1) w1 Hfs' Hllm' eq_refl)
      as (w2 & e2 & bss2 & Hrun2 & Hro2 & HR2).
    exists w2, (e1 ++ e2), (bss1 ++ bss2). cbn [for_each].
    rewrite (bind_ok _ _ _ _ _ Hrun1), Hrun2, concat_app, <- app_assoc.
    split; [reflexivity|]. split.
    + apply (reads_only_trans w w1 w2); [repeat split; assumption | exact Hro2].
    + now apply Forall2_app.
Qed.

(** The traversal of [markd.py] on a tree that [fuel] suffices for: the
    summary grows by the blocks of every listing, in traversal order. *)
Lemma markd_walk_spec {FS : Type} {os : OS FS} (folder_path : str) (t : FS)
      (model : nat -> str -> result str) (fuel : nat) :
  forall (top : str) (entries : list (str * list str * list str))
         (summary : list str) (w : World FS),
    fs w = t -> llm w = model -> walk_list fuel top t = Some entries ->
    exists (w' : World FS) (evs : list Event) (bss : list (list str)),
      os_walk fuel top
              (fun root _ files summary =>
                 Markd.process_listing folder_path root files summary) summary w
      = (Ok (summary ++ concat bss), w')
      /\ reads_only w w' evs
      /\ Forall2 (listing_blocks folder_path t model) entries bss.
Proof.
  induction fuel as [|n IH]; intros top entries summary w Hfs Hllm Hlist; [discriminate|].
  cbn [walk_list] in Hlist. cbn [os_walk]. rewrite Hfs.
  destruct (fs_scandir top t) as [[dirs files]|msg].
  - destruct (walk_each (fun d => walk_list n (os_path_join top d) t) dirs)
      as [rest|] eqn:Hrest; [|discriminate].
    injection Hlist as <-.
    set (w0 := after w [Yield top dirs files]).
    destruct (markd_process_listing_spec folder_path top dirs files summary w0)
      as (w1 & e1 & bs & Hrun1 & Hro1 & HR1).
    destruct Hro1 as (Hfs1 & Hllm1 & Htr1 & Hw1).
    destruct (walk_each_spec folder_path t model
                (fun d s'' => os_walk n (os_path_join top d)
                                      (fun root _ files summary =>
                                         Markd.process_listing folder_path root files summary)
                                      s'')
                (fun d => walk_list n (os_path_join top d) t)
                (fun d entries summary w => IH (os_path_join top d) entries summary w)
                dirs rest (summary ++ bs) w1 (eq_trans Hfs1 Hfs) (eq_trans Hllm1 Hllm) Hrest)
      as (w2 & e2 & bss & Hrun2 & Hro2 & HR2).
    exists w2, (([Yield top dirs files] ++ e1) ++ e2), (bs :: bss).
    split.
    { unfold bind at 1. unfold emit. fold w0.
      rewrite (bind_ok _ _ _ _ _ Hrun1), Hrun2. cbn [concat].
      now rewrite <- app_assoc. }
    split.
    { apply (reads_only_trans w w1 w2); [|exact Hro2].
      apply (reads_only_trans w w0 w1); [|repeat split; assumption].
      subst w0. repeat split. }
    constructor; [|exact HR2].
    subst w0. cbn in HR1. rewrite Hfs, Hllm in HR1. exact HR1.
  - injection Hlist as <-. exists w, [], []. cbn. rewrite app_nil_r.
    split; [reflexivity|]. split; [apply reads_only_refl | constructor].
Qed.

Lemma Forall2_In_left {A B} (R : A -> B -> Prop) (l : list A) (l' : list B) (x : A) :
  Forall2 R l l' -> In x l -> exists y, In y l' /\ R x y.
Proof.
  induction 1 as [|a b l l' Hab _ IH]; intros Hin; [contradiction|].
  destruct Hin as [<- | Hin].
  - exists b. split; [now left | exact Hab].
  - destruct (IH Hin) as (y & Hy & HR). exists y. split; [now right | exact HR].
Qed.

(** A block of a newline-joined list stands in the text at the start of a
    line. *)
Lemma join_NL_In (b : str) (bs : list str) :
  In b bs ->
  exists before behind : str,
    join NL bs = before ++ b ++ behind /\ (before = [] \/ endswith before NL = true).
Proof.
  induction bs as [|b' bs IH]; intro Hin; [contradiction|].
  destruct bs as [|b2 bs'].
  - destruct Hin as [<- | []]. exists [], []. cbn. rewrite app_nil_r. now split; [|left].
  - change (join NL (b' :: b2 :: bs')) with (b' ++ NL ++ join NL (b2 :: bs')).
    destruct Hin as [<- | Hin].
    + exists [], (NL ++ join NL (b2 :: bs')). now split; [|left].
    + destruct (IH Hin) as (before & behind & Hjoin & Hstart).
      exists (b' ++ NL ++ before), behind. rewrite Hjoin, <- !app_assoc.
      split; [reflexivity|]. right.
      destruct Hstart as [-> | Hend].
      * rewrite app_nil_r. apply endswith_NL_snoc.
      * rewrite app_assoc, endswith_NL_app; [exact Hend|].
        intros ->. discriminate.
Qed.

Lemma summarize_project_spec {FS : Type} {os : OS FS}
      (fuel : nat) (folder_path : str) (w : World FS)
      (entries : list (str * list str * list str)) :
  walk_list fuel folder_path (fs w) = Some entries ->
  exists (w' : World FS) (evs : list Event) (bss : list (list str)),
    Markd.summarize_project fuel folder_path w = (Ok (concat bss), w')
    /\ reads_only w w' evs
    /\ Forall2 (listing_blocks folder_path (fs w) (llm w)) entries bss.
Proof.
  intro Hlist. unfold Markd.summarize_project.
  set (w0 := after w [Log DEBUG (u "Scanning folder structure at: " ++ folder_path)]).
  destruct (markd_walk_spec folder_path (fs w) (llm w) fuel folder_path entries [] w0
                            eq_refl eq_refl Hlist)
    as (w' & evs & bss & Hrun & Hro & HR).
  exists w', ([Log DEBUG (u "Scanning folder structure at: " ++ folder_path)] ++ evs), bss.
  split; [unfold bind at 1; exact Hrun|]. split; [|exact HR].
  apply (reads_only_trans w w0 w'); [|exact Hro]. subst w0. repeat split.
Qed.

(** C10. On every project whose tree [fuel] suffices for, the summary
    holds, for every directory the traversal visits, with or without
    sources in it, the heading [## Directory: <relative path>]; the
    document handed to [save_markdown_document] is the newline-join of the
    summary, so the heading stands in it as a line of its own. *)
Theorem C10_every_visited_directory_has_its_heading :
  forall (FS : Type) (os : OS FS) (fuel : nat) (folder_path : str) (w : World FS)
         (entries : list (str * list str * list str)),
    walk_list fuel folder_path (fs w) = Some entries ->
    exists (summary : list str) (w1 : World FS),
      Markd.summarize_project fuel folder_path w = (Ok summary, w1)
      /\ Markd.process_project fuel folder_path w
         = Markd.save_markdown_document (join NL summary) folder_path w1
      /\ forall (root : str) (dirs files : list str),
          In (root, dirs, files) entries ->
          exists before behind : str,
            join NL summary
            = before ++ (u "## Directory: " ++ fs_relpath root folder_path (fs w) ++ NL)
                     ++ behind
            /\ (before = [] \/ endswith before NL = true).
Proof.
  intros FS os fuel folder_path w entries Hlist.
  destruct (summarize_project_spec fuel folder_path w entries Hlist)
    as (w1 & evs & bss & Hrun & _ & HR).
  exists (concat bss), w1. split; [exact Hrun|]. split.
  - unfold Markd.process_project. now rewrite (bind_ok _ _ _ _ _ Hrun).
  - intros root dirs files Hin.
    destruct (Forall2_In_left _ _ _ _ HR Hin) as (bs & Hbs & blocks & -> & _).
    apply join_NL_In. apply in_concat. eexists. split; [exact Hbs | now left].
Qed.

Lemma filter_is_section_sections (secs : list (str * str)) :
  filter is_section (map (fun s => file_section (fst s) (snd s)) secs)
  = map (fun s => file_section (fst s) (snd s)) secs.
Proof.
  apply filter_all. apply Forall_forall. intros b Hb.
  apply in_map_iff in Hb as (s & <- & _). apply is_section_file_section.
Qed.

(** With readable sources and a model that answers, the blocks of a
    traversal that begin with [###] are the sections of its sources, one
    for each, in traversal order. *)
Lemma sections_of_traversal {FS : Type} {os : OS FS} (folder_path : str) (t : FS)
      (model : nat -> str -> result str)
      (entries : list (str * list str * list str)) (bss : list (list str)) :
  Forall2 (listing_blocks folder_path t model) entries bss ->
  (forall root dirs files f,
      In (root, dirs, files) entries -> In f files -> is_source f = true ->
      succeeded (fs_read (os_path_join root f) t) = true) ->
  (forall k p, succeeded (model k p) = true) ->
  exists secs : list (str * str),
    map fst secs = sources_of entries
    /\ filter is_section (concat bss) = map (fun s => file_section (fst s) (snd s)) secs.
Proof.
  intros HR. induction HR as [|[[root dirs] files] bs entries bss Hbs _ IH];
    intros Hread Hmodel.
  - exists []. split; reflexivity.
  - destruct Hbs as (blocks & -> & Hsecs).
    assert (Hhere : forall f, In f files -> is_source f = true ->
                              succeeded (fs_read (os_path_join root f) t) = true).
    { intros f Hin Hsrc. apply (Hread root dirs files f); [now left | exact Hin | exact Hsrc]. }
    destruct (Hsecs Hhere Hmodel) as (secs & Hnames & ->).
    assert (Hthere : forall r d fl f,
               In (r, d, fl) entries -> In f fl -> is_source f = true ->
               succeeded (fs_read (os_path_join r f) t) = true).
    { intros r d fl f Hin. apply (Hread r d fl f). now right. }
    destruct (IH Hthere Hmodel) as (rest & Hrest & Hfilter).
    exists (secs ++ rest). split.
    + rewrite map_app, Hnames, Hrest. reflexivity.
    + cbn [concat]. rewrite filter_app. cbn [filter app].
      rewrite is_section_directory_heading, filter_is_section_sections, Hfilter, map_app.
      reflexivity.
Qed.

(** C8. On a project whose tree [fuel] suffices for, whose sources can all
    be read, with a model that answers and a [docs] folder that can be
    made and written to, doc generation writes once, to
    [docs/project_documentation.md]; the text is the newline-join of the
    summary, and the blocks of the summary that begin with [###] are the
    sections [### <file name>] of the sources, one for each, in traversal
    order. *)
Theorem C8_one_document_with_a_section_per_source :
  forall (FS : Type) (os : OS FS) (fuel : nat) (folder_path : str) (w : World FS)
         (entries : list (str * list str * list str)) (fs1 : FS),
    walk_list fuel folder_path (fs w) = Some entries ->
    (forall root dirs files f,
        In (root, dirs, files) entries -> In f files -> is_source f = true ->
        succeeded (fs_read (os_path_join root f) (fs w)) = true) ->
    (forall k p, succeeded (llm w k p) = true) ->
    fs_makedirs (Markd.markdown_folder folder_path) (fs w) = (Success tt, fs1) ->
    (forall content,
        fst (fs_write (Markd.markdown_file_path folder_path) content fs1) = Success tt) ->
    exists (w' : World FS) (evs : list Event) (summary : list str) (secs : list (str * str)),
      Markd.process_project fuel folder_path w = (Ok tt, w')
      /\ trace w' = trace w ++ evs
      /\ writes evs = [(Markd.markdown_file_path folder_path, join NL summary)]
      /\ In (Write (Markd.markdown_file_path folder_path) (join NL summary) true) evs
      /\ fs w' = snd (fs_write (Markd.markdown_file_path folder_path) (join NL summary) fs1)
      /\ map fst secs = sources_of entries
      /\ filter is_section summary = map (fun s => file_section (fst s) (snd s)) secs.
Proof.
  intros FS os fuel folder_path w entries fs1 Hlist Hread Hmodel Hmk Hwr.
  destruct (summarize_project_spec fuel folder_path w entries Hlist)
    as (w1 & evs & bss & Hrun & (Hfs & Hllm & Htr & Hw) & HR).
  destruct (sections_of_traversal folder_path (fs w) (llm w) entries bss HR Hread Hmodel)
    as (secs & Hnames & Hfilter).
  specialize (Hwr (join NL (concat bss))).
  destruct (fs_write (Markd.markdown_file_path folder_path) (join NL (concat bss)) fs1)
    as [r fs2] eqn:Hwrite.
  cbn in Hwr. subst r.
  eexists. exists (evs ++
    [ Makedirs (Markd.markdown_folder folder_path) true;
      Write (Markd.markdown_file_path folder_path) (join NL (concat bss)) true;
      Log INFO (u "Markdown document saved to " ++ Markd.markdown_file_path folder_path) ]).
  exists (concat bss), secs.
  split.
  { unfold Markd.process_project. rewrite (bind_ok _ _ _ _ _ Hrun).
    unfold Markd.save_markdown_document, os_makedirs, write_file, try_except, bind,
      logger, emit, set_fs.
    rewrite Hfs, Hmk. cbn. rewrite Hwrite. cbn. reflexivity. }
  cbn. rewrite Htr, <- !app_assoc.
  split; [reflexivity|]. split.
  { unfold writes in *. rewrite flat_map_app, Hw. reflexivity. }
  split; [apply in_or_app; right; right; now left|].
  rewrite Hwrite. repeat split; assumption.
Qed.

Lemma C8_one_document_with_a_section_per_source_witness :
  let w := Sim.world demo_project fenced_model in
  let fs1 := snd (Sim.makedirs (u "proj/docs") demo_project) in
  exists (w' : World Sim.FS) (evs : list Event) (summary : list str) (secs : list (str * str)),
    Markd.process_project 5 (u "proj") w = (Ok tt, w')
    /\ trace w' = trace w ++ evs
    /\ writes evs = [(Markd.markdown_file_path (u "proj"), join NL summary)]
    /\ In (Write (Markd.markdown_file_path (u "proj")) (join NL summary) true) evs
    /\ fs w' = snd (fs_write (Markd.markdown_file_path (u "proj")) (join NL summary) fs1)
    /\ map fst secs = sources_of demo_entries
    /\ filter is_section summary = map (fun s => file_section (fst s) (snd s)) secs.
Proof.
  intros w fs1.
  apply (C8_one_document_with_a_section_per_source
           Sim.FS Sim.os 5%nat (u "proj") w demo_entries fs1).
  - vm_compute. reflexivity.
  - intros root dirs files f [E | [E | []]]; injection E as <- <- <-.
    + intros [<- | [<- | [<- | []]]]; vm_compute; congruence.
    + intros [<- | []]; vm_compute; congruence.
  - intros k p. reflexivity.
  - vm_compute. reflexivity.
  - intro content. reflexivity.
Defined.

Lemma C10_every_visited_directory_has_its_heading_witness :
  let w := Sim.world demo_project broken_model in
  exists (summary : list str) (w1 : World Sim.FS),
    Markd.summarize_project 5 (u "proj") w = (Ok summary, w1)
    /\ Markd.process_project 5 (u "proj") w
       = Markd.save_markdown_document (join NL summary) (u "proj") w1
    /\ forall (root : str) (dirs files : list str),
        In (root, dirs, files) demo_entries ->
        exists before behind : str,
          join NL summary
          = before ++ (u "## Directory: " ++ fs_relpath root (u "proj") (fs w) ++ NL)
                   ++ behind
          /\ (before = [] \/ endswith before NL = true).
Proof.
  intro w.
  apply (C10_every_visited_directory_has_its_heading
           Sim.FS Sim.os 5%nat (u "proj") w demo_entries).
  vm_compute. reflexivity.
Defined.

(** ** The programs on the demo project *)

(** With the model down, test generation still reads the three sources
    and writes a file for each. *)
Example cli_run_with_broken_model :
  let w' := snd (Cli.process_project 5 (u "proj") (Sim.world demo_project broken_model)) in
  fst (Cli.process_project 5 (u "proj") (Sim.world demo_project broken_model)) = Ok tt
  /\ attempted_reads (trace w') = [u "proj/a.py"; u "proj/b.py"; u "proj/sub/a.py"]
  /\ writes (trace w')
     = [ (u "proj/tests/test_a.py", u "Error: connection refused");
         (u "proj/tests/test_b.py", u "Error: connection refused");
         (u "proj/tests/test_a.py", u "Error: connection refused") ].
Proof. vm_compute. repeat split. Qed.

(** The document of the demo project. *)
Example markd_run_on_demo_project :
  writes (trace (snd (Markd.process_project 5 (u "proj")
                                            (Sim.world demo_project fenced_model))))
  = [ (u "proj/docs/project_documentation.md",
       u "## Directory: ." ++ NL ++ NL
       ++ u "### a.py" ++ NL ++ NL ++ u "assert True" ++ NL ++ NL
       ++ u "### b.py" ++ NL ++ NL ++ u "assert True" ++ NL ++ NL
       ++ u "## Directory: sub" ++ NL ++ NL
       ++ u "### a.py" ++ NL ++ NL ++ u "assert True" ++ NL) ].
Proof. vm_compute. reflexivity. Qed.

(** [splitlines] on the examples of the Python documentation. *)
Example splitlines_examples :
  splitlines (u "ab c" ++ [10; 10] ++ u "de fg" ++ [13] ++ u "kl" ++ [13; 10])
  = [u "ab c"; []; u "de fg"; u "kl"]
  /\ splitlines [] = []
  /\ splitlines (u "One line" ++ NL) = [u "One line"]
  /\ splitlines (u "Two lines" ++ NL ++ NL) = [u "Two lines"; []].
Proof. vm_compute. repeat split. Qed.

(** [os.path.splitext] and [os.path.join] on examples. *)
Example path_examples :
  splitext (u "a.py") = (u "a", u ".py")
  /\ splitext (u "a.b.py") = (u "a.b", u ".py")
  /\ splitext (u ".py") = (u ".py", [])
  /\ splitext (u "..py") = (u "..py", [])
  /\ splitext (u "dir.d/name") = (u "dir.d/name", [])
  /\ os_path_join (u "proj") (u "tests") = u "proj/tests"
  /\ os_path_join (u "proj/") (u "tests") = u "proj/tests"
  /\ os_path_join [] (u "tests") = u "tests"
  /\ os_path_join (u "proj") (u "/abs") = u "/abs".
Proof. vm_compute. repeat split. Qed.

(** ** More on the sanitizer *)

Lemma drop_final_empty_In (l : str) (ls : list str) :
  In l (drop_final_empty ls) -> In l ls.
Proof.
  induction ls as [|x ls IH]; [intros []|].
  destruct ls as [|y ls'].
  - simpl. destruct (is_empty x); [intros [] | exact (fun H => H)].
  - change (drop_final_empty (x :: y :: ls')) with (x :: drop_final_empty (y :: ls')).
    intros [<- | H]; [now left | right; now apply IH].
Qed.

(** X1. No fence line is left: no line of the cleaned text has, trimmed,
    the content of a fence marker. *)
Theorem X1_cleaned_text_has_no_fence_line :
  forall text line : str,
    In line (splitlines (clean_code_value text)) -> ~ is_fence_marker (strip line).
Proof.
  intros text line Hin. unfold clean_code_value in Hin.
  rewrite splitlines_join in Hin by apply kept_lines_no_break.
  apply drop_final_empty_In in Hin. apply keep_line_spec.
  revert line Hin. apply Forall_forall. apply kept_lines_keep.
Qed.

Lemma X1_cleaned_text_has_no_fence_line_witness :
  ~ is_fence_marker (strip (u "x = 1")).
Proof.
  apply (X1_cleaned_text_has_no_fence_line
           (u "```python" ++ NL ++ u "x = 1" ++ [13; 10] ++ u " ``` ") (u "x = 1")).
  vm_compute. left. reflexivity.
Defined.

Lemma join_NL_boundaries (ls : list str) (c : char) :
  Forall no_break ls -> In c (join NL ls) -> is_linebreak c = true -> c = 10.
Proof.
  induction ls as [|l ls IH]; intros Hnb Hin Hc; [contradiction|].
  inversion Hnb as [|? ? Hl Hls]; subst.
  assert (Hline : In c l -> c = 10).
  { intro H. unfold no_break in Hl. rewrite forallb_forall in Hl.
    specialize (Hl c H). rewrite Hc in Hl. discriminate. }
  destruct ls as [|l2 ls'].
  - now apply Hline.
  - change (join NL (l :: l2 :: ls')) with (l ++ NL ++ join NL (l2 :: ls')) in Hin.
    apply in_app_or in Hin as [H | H]; [now apply Hline|].
    apply in_app_or in H as [[<- | []] | H]; [reflexivity|].
    now apply IH.
Qed.

(** X2. Every line boundary of the cleaned text is a newline: carriage
    returns, form feeds and the other boundaries of the input are gone. *)
Theorem X2_cleaned_text_has_newline_boundaries_only :
  forall (text : str) (c : char),
    In c (clean_code_value text) -> is_linebreak c = true -> c = 10.
Proof.
  intros text c. apply join_NL_boundaries. apply kept_lines_no_break.
Qed.

Lemma X2_cleaned_text_has_newline_boundaries_only_witness :
  (10 : char) = 10.
Proof.
  apply (X2_cleaned_text_has_newline_boundaries_only
           (u "a" ++ [13; 10] ++ u "b" ++ [12] ++ u "c") 10).
  - vm_compute. right. left. reflexivity.
  - reflexivity.
Defined.

Lemma splitlines_weight_len (n : nat) :
  forall s, (List.length s <= n)%nat ->
            (lines_weight (splitlines s) <= List.length s + 1)%nat.
Proof.
  induction n as [|n IH]; intros [|c s] Hlen; simpl in *; try lia.
  destruct (is_linebreak c).
  - destruct (c =? 13).
    + destruct s as [|x r]; [simpl; lia|].
      destruct (x =? 10).
      * assert (lines_weight (splitlines r) <= List.length r + 1)%nat
          by (apply IH; simpl in *; lia).
        simpl in *. lia.
      * assert (lines_weight (splitlines (x :: r)) <= List.length (x :: r) + 1)%nat
          by (apply IH; simpl in *; lia).
        simpl length in *. cbn [lines_weight fold_right length]. 
        unfold lines_weight in H. lia.
    + assert (lines_weight (splitlines s) <= List.length s + 1)%nat by (apply IH; lia).
      cbn [lines_weight fold_right length]. unfold lines_weight in H. lia.
  - assert (H : (lines_weight (splitlines s) <= List.length s + 1)%nat) by (apply IH; lia).
    destruct (splitlines s) as [|l ls]; simpl in *; lia.
Qed.

Lemma lines_weight_cons (l : str) (ls : list str) :
  lines_weight (l :: ls) = (List.length l + 1 + lines_weight ls)%nat.
Proof. reflexivity. Qed.

Lemma join_NL_length (ls : list str) :
  (List.length (join NL ls) + 1
   <= lines_weight ls + match ls with [] => 1 | _ :: _ => 0 end)%nat.
Proof.
  induction ls as [|l ls IH]; [simpl; lia|].
  destruct ls as [|l2 ls'].
  - simpl. lia.
  - change (join NL (l :: l2 :: ls')) with (l ++ NL ++ join NL (l2 :: ls')).
    rewrite !length_app, (lines_weight_cons l). simpl (List.length NL). lia.
Qed.

Lemma lines_weight_filter (f : str -> bool) (ls : list str) :
  (lines_weight (filter f ls) <= lines_weight ls)%nat.
Proof.
  induction ls as [|l ls IH]; [simpl; lia|].
  cbn [filter]. destruct (f l); rewrite ?lines_weight_cons; lia.
Qed.

(** X3. Cleaning never makes a text longer. *)
Theorem X3_cleaned_text_is_not_longer :
  forall text : str, (List.length (clean_code_value text) <= List.length text)%nat.
Proof.
  intro text. unfold clean_code_value, kept_lines.
  pose proof (join_NL_length (filter keep_line (splitlines text))) as Hjoin.
  pose proof (lines_weight_filter keep_line (splitlines text)) as Hfilter.
  pose proof (splitlines_weight_len (List.length text) text (le_n _)) as Hsplit.
  destruct (filter keep_line (splitlines text)) as [|k ks]; [simpl; lia|]. lia.
Qed.

Lemma drop_final_empty_snoc (ls : list str) (x : str) :
  x <> [] -> drop_final_empty (ls ++ [x]) = ls ++ [x].
Proof.
  intro Hx. induction ls as [|l ls IH].
  - simpl. destruct x; [contradiction | reflexivity].
  - destruct ls as [|l2 ls'].
    + simpl. destruct x; [contradiction | reflexivity].
    + change (drop_final_empty ((l :: l2 :: ls') ++ [x]))
        with (l :: drop_final_empty ((l2 :: ls') ++ [x])).
      now rewrite IH.
Qed.

(** X4. A block between an opening and a closing fence is unwrapped: when
    the lines of the code hold no boundary and none of them is a fence
    line, cleaning the fenced block gives the code, joined with newlines. *)
Theorem X4_fenced_block_is_unwrapped :
  forall code_lines : list str,
    Forall no_break code_lines ->
    Forall (fun l => keep_line l = true) code_lines ->
    clean_code_value (join NL (u "```python" :: code_lines ++ [u "```"]))
    = join NL code_lines.
Proof.
  intros code_lines Hnb Hkeep. unfold clean_code_value, kept_lines.
  rewrite splitlines_join.
  - change (u "```python" :: code_lines ++ [u "```"])
      with ((u "```python" :: code_lines) ++ [u "```"]).
    rewrite drop_final_empty_snoc by discriminate.
    change ((u "```python" :: code_lines) ++ [u "```"])
      with ([u "```python"] ++ code_lines ++ [u "```"]).
    rewrite !filter_app, (filter_all _ _ Hkeep).
    change (filter keep_line [u "```python"]) with (@nil str).
    change (filter keep_line [u "```"]) with (@nil str).
    now rewrite app_nil_r.
  - constructor; [reflexivity|]. apply Forall_app. split; [exact Hnb|].
    constructor; [reflexivity | constructor].
Qed.

Lemma X4_fenced_block_is_unwrapped_witness :
  clean_code_value (join NL (u "```python" :: [u "def f():"; u "    return 1"] ++ [u "```"]))
  = join NL [u "def f():"; u "    return 1"].
Proof.
  apply X4_fenced_block_is_unwrapped.
  - repeat constructor.
  - repeat constructor.
Defined.

(** X5. On a text whose lines are joined with newlines and hold neither
    another boundary nor a fence line, cleaning takes one final newline
    away, if there is one, and changes nothing else. *)
Theorem X5_fence_free_text_only_loses_a_final_newline :
  forall ls : list str,
    Forall no_break ls ->
    Forall (fun l => keep_line l = true) ls ->
    clean_code_value (join NL ls) = without_final_newline (join NL ls).
Proof.
  intros ls Hnb Hkeep. unfold clean_code_value, kept_lines.
  rewrite splitlines_join by exact Hnb.
  rewrite filter_all by (apply drop_final_empty_Forall; exact Hkeep).
  now apply join_drop_final_empty.
Qed.

Lemma X5_fence_free_text_only_loses_a_final_newline_witness :
  clean_code_value (join NL [u "import os"; []; u "print(os.sep)"; []])
  = without_final_newline (join NL [u "import os"; []; u "print(os.sep)"; []]).
Proof.
  apply X5_fence_free_text_only_loses_a_final_newline.
  - repeat constructor.
  - repeat constructor.
Defined.

(** ** More on the model calls *)

(** X6. [generate_test_cases] always returns a text and never raises: it
    calls the model once, with the prompt made of the file name and the
    code, leaves the file system alone, and returns the cleaned answer, or
    [Error: msg] when the call fails with [msg]. *)
Theorem X6_generate_test_cases_always_returns_a_text :
  forall (FS : Type) (os : OS FS) (code file_name : str) (w : World FS),
  exists (text : str) (w' : World FS) (evs : list Event),
    Cli.generate_test_cases code file_name w = (Ok text, w')
    /\ fs w' = fs w /\ calls w' = S (calls w)
    /\ trace w' = trace w ++ evs
    /\ model_calls evs = [Cli.template (Cli.question code file_name)]
    /\ text = match llm w (calls w) (Cli.template (Cli.question code file_name)) with
              | Success response => clean_code_value response
              | Failure msg => u "Error: " ++ msg
              end.
Proof.
  intros FS os code file_name w.
  unfold Cli.generate_test_cases, Cli.clean_code, Cli.chain_invoke, model_invoke,
    try_except, bind, logger, emit, ret.
  run_env; (eexists; eexists; eexists; split; [reflexivity|]); cbn;
    rewrite <- ?app_assoc; repeat split.
Qed.

(** X7. [generate_markdown_document] always returns a text and never
    raises: one model call, the file system left alone; the text is the
    section [### <file name>] with the cleaned answer when the model
    answers, and [Error: msg], which is no section, when it fails. *)
Theorem X7_generate_markdown_document_always_returns_a_text :
  forall (FS : Type) (os : OS FS) (code file_name relative_root : str) (w : World FS),
  exists (text : str) (w' : World FS) (evs : list Event),
    Markd.generate_markdown_document code file_name relative_root w = (Ok text, w')
    /\ fs w' = fs w /\ calls w' = S (calls w)
    /\ trace w' = trace w ++ evs
    /\ model_calls evs = [Markd.template (Markd.question code file_name)]
    /\ text = match llm w (calls w) (Markd.template (Markd.question code file_name)) with
              | Success response => file_section file_name (clean_code_value response)
              | Failure msg => u "Error: " ++ msg
              end
    /\ is_section text
       = succeeded (llm w (calls w) (Markd.template (Markd.question code file_name))).
Proof.
  intros FS os code file_name relative_root w.
  unfold Markd.generate_markdown_document, Markd.clean_code, Markd.chain_invoke,
    model_invoke, try_except, bind, logger, emit, ret.
  run_env; (eexists; eexists; eexists; split; [reflexivity|]); cbn;
    rewrite <- ?app_assoc; repeat split.
Qed.

(** ** More on saving *)

(** X8. [save_test_cases] raises exactly when the tests folder cannot be
    made, and then tries no write.  When the folder is there it tries one
    write, of the given text to the test file of the source, and returns
    normally whether the write succeeds or not; a failed write is logged
    as one error. *)
Theorem X8_save_test_cases_raises_only_for_the_folder :
  forall (FS : Type) (os : OS FS) (file_name test_code project_path : str) (w : World FS),
  exists (o : outcome unit) (w' : World FS) (evs : list Event),
    Cli.save_test_cases file_name test_code project_path w = (o, w')
    /\ trace w' = trace w ++ evs
    /\ makedirs_calls evs = [Cli.tests_folder project_path]
    /\ match fs_makedirs (Cli.tests_folder project_path) (fs w) with
       | (Failure msg, fs1) =>
         o = Raise (Exception msg) /\ writes evs = [] /\ fs w' = fs1
       | (Success _, fs1) =>
         o = Ok tt
         /\ writes evs = [(Cli.test_file_path file_name project_path, test_code)]
         /\ fs w' = snd (fs_write (Cli.test_file_path file_name project_path) test_code fs1)
         /\ error_logs evs
            = match fst (fs_write (Cli.test_file_path file_name project_path)
                                  test_code fs1) with
              | Success _ => []
              | Failure msg =>
                [u "Error saving test cases for " ++ file_name ++ u ": " ++ msg]
              end
       end.
Proof.
  intros FS os file_name test_code project_path w.
  unfold Cli.save_test_cases, os_makedirs, write_file, try_except, bind, logger, emit,
    set_fs.
  destruct (fs_makedirs (Cli.tests_folder project_path) (fs w)) as [[[]|msg] fs1].
  - cbn.
    destruct (fs_write (Cli.test_file_path file_name project_path) test_code fs1)
      as [[[]|msg] fs2]; cbn;
      (eexists; eexists; eexists; split; [reflexivity|]); cbn;
      rewrite <- ?app_assoc; repeat split.
  - cbn. (eexists; eexists; eexists; split; [reflexivity|]); cbn; repeat split.
Qed.

(** X9. [save_markdown_document] raises exactly when the [docs] folder
    cannot be made, and then tries no write.  When the folder is there it
    tries one write, of the document to [project_documentation.md], and
    returns normally whether the write succeeds or not; a failed write is
    logged as one error. *)
Theorem X9_save_markdown_document_raises_only_for_the_folder :
  forall (FS : Type) (os : OS FS) (markdown_content project_path : str) (w : World FS),
  exists (o : outcome unit) (w' : World FS) (evs : list Event),
    Markd.save_markdown_document markdown_content project_path w = (o, w')
    /\ trace w' = trace w ++ evs
    /\ makedirs_calls evs = [Markd.markdown_folder project_path]
    /\ match fs_makedirs (Markd.markdown_folder project_path) (fs w) with
       | (Failure msg, fs1) =>
         o = Raise (Exception msg) /\ writes evs = [] /\ fs w' = fs1
       | (Success _, fs1) =>
         o = Ok tt
         /\ writes evs = [(Markd.markdown_file_path project_path, markdown_content)]
         /\ fs w' = snd (fs_write (Markd.markdown_file_path project_path)
                                  markdown_content fs1)
         /\ error_logs evs
            = match fst (fs_write (Markd.markdown_file_path project_path)
                                  markdown_content fs1) with
              | Success _ => []
              | Failure msg => [u "Error saving markdown document: " ++ msg]
              end
       end.
Proof.
  intros FS os markdown_content project_path w.
  unfold Markd.save_markdown_document, os_makedirs, write_file, try_except, bind,
    logger, emit, set_fs.
  destruct (fs_makedirs (Markd.markdown_folder project_path) (fs w)) as [[[]|msg] fs1].
  - cbn.
    destruct (fs_write (Markd.markdown_file_path project_path) markdown_content fs1)
      as [[[]|msg] fs2]; cbn;
      (eexists; eexists; eexists; split; [reflexivity|]); cbn;
      rewrite <- ?app_assoc; repeat split.
  - cbn. (eexists; eexists; eexists; split; [reflexivity|]); cbn; repeat split.
Qed.

(** ** More on the test runner and its configuration *)

(** X10. [create_pytest_ini_with_llm] never raises and never makes a
    folder.  It calls the model once with the configuration request; when
    the call fails nothing is written, the file system stays as it was
    and one error is logged; when the model answers, one write is tried,
    of the cleaned answer to [pytest.ini] in the given folder. *)
Theorem X10_create_pytest_ini_never_raises :
  forall (FS : Type) (os : OS FS) (tests_folder : str) (w : World FS),
  exists (w' : World FS) (evs : list Event),
    Cli.create_pytest_ini_with_llm tests_folder w = (Ok tt, w')
    /\ trace w' = trace w ++ evs
    /\ makedirs_calls evs = []
    /\ model_calls evs = [Cli.template Cli.pytest_ini_template]
    /\ match llm w (calls w) (Cli.template Cli.pytest_ini_template) with
       | Failure msg =>
         writes evs = [] /\ fs w' = fs w
         /\ error_logs evs = [u "Error creating pytest.ini: " ++ msg]
       | Success response =>
         writes evs
         = [(os_path_join tests_folder (u "pytest.ini"), clean_code_value response)]
       end.
Proof.
  intros FS os tests_folder w.
  unfold Cli.create_pytest_ini_with_llm, Cli.clean_code, Cli.chain_invoke, model_invoke,
    write_file, try_except, bind, logger, emit, set_fs, ret.
  run_env; (eexists; eexists; split; [reflexivity|]); cbn;
    rewrite <- ?app_assoc; repeat split.
Qed.

(** X11. When the tests folder exists, [validate_tests_cli] never raises.
    If the runner ran, it prints [Validation Results:] and the captured
    output, then, only when the captured error output is not empty, a
    line [Errors:] and that output; the return code of the runner is not
    shown and no error is logged, whatever the code is.  If the runner
    could not be started, nothing is printed and one error is logged. *)
Theorem X11_validate_tests_cli_prints_what_the_runner_said :
  forall (FS : Type) (os : OS FS) (project_path : str) (w : World FS),
    fs_exists (os_path_join project_path (u "tests")) (fs w) = true ->
    exists (w' : World FS) (evs : list Event),
      Cli.validate_tests_cli project_path w = (Ok tt, w')
      /\ trace w' = trace w ++ evs
      /\ match fst (fs_pytest (os_path_join project_path (u "tests")) (fs w)) with
         | Success (stdout, stderr, returncode) =>
           prints evs
           = u "Validation Results:" :: stdout
               :: (if is_empty stderr then [] else [NL ++ u "Errors:"; stderr])
           /\ error_logs evs = []
         | Failure msg =>
           prints evs = [] /\ error_logs evs = [u "Error validating tests: " ++ msg]
         end.
Proof.
  intros FS os project_path w Hexists.
  unfold Cli.validate_tests_cli, Cli.validate_tests, subprocess_run_pytest, os_path_exists,
    try_except, bind, logger, print, emit, set_fs, ret.
  rewrite Hexists. cbn.
  destruct (fs_pytest (os_path_join project_path (u "tests")) (fs w))
    as [[[[stdout stderr] returncode]|msg] fs1]; cbn.
  - destruct stderr as [|c stderr]; cbn;
      (eexists; eexists; split; [reflexivity|]); cbn;
      rewrite <- ?app_assoc; repeat split.
  - (eexists; eexists; split; [reflexivity|]); cbn; rewrite <- ?app_assoc; repeat split.
Qed.

Lemma X11_validate_tests_cli_prints_what_the_runner_said_witness :
  exists (w' : World Sim.FS) (evs : list Event),
    Cli.validate_tests_cli [] (Sim.world cwd_with_tests broken_model) = (Ok tt, w')
    /\ trace w' = trace (Sim.world cwd_with_tests broken_model) ++ evs
    /\ prints evs = [u "Validation Results:"; u "no tests ran"]
    /\ error_logs evs = [].
Proof.
  destruct (X11_validate_tests_cli_prints_what_the_runner_said
              Sim.FS Sim.os [] (Sim.world cwd_with_tests broken_model) eq_refl)
    as (w' & evs & Hrun & Htr & Hprints & Herrors).
  exists w', evs. repeat split; assumption.
Defined.

(** ** More on the commands *)



Lemma cli_process_project_traversed {FS : Type} {os : OS FS}
      (fuel : nat) (folder_path : str) (w : World FS) :
  exists (o : outcome unit) (w' : World FS) (evs : list Event),
    Cli.process_project fuel folder_path w = (o, w')
    /\ (forall e, o <> Raise e)
    /\ trace w' = trace w ++ evs /\ traversed evs.
Proof.
  unfold Cli.process_project.
  set (w0 := after w [Log DEBUG (u "Scanning folder structure at: " ++ folder_path)]).
  destruct (cli_walk_traversed folder_path fuel folder_path tt w0)
    as (o & w' & evs & Hrun & Hno & Htr & Htrav).
  exists o, w', ([Log DEBUG (u "Scanning folder structure at: " ++ folder_path)] ++ evs).
  split; [unfold bind at 1; exact Hrun|]. split; [exact Hno|].
  split; [rewrite Htr; subst w0; cbn; now rewrite <- app_assoc|].
  apply traversed_app; [repeat split | exact Htrav].
Qed.

Lemma create_pytest_ini_events {FS : Type} {os : OS FS} (tests_folder : str) (w : World FS) :
  exists (w' : World FS) (evs : list Event),
    Cli.create_pytest_ini_with_llm tests_folder w = (Ok tt, w')
    /\ trace w' = trace w ++ evs
    /\ List.length (model_calls evs) = 1%nat /\ successful_reads evs = [].
Proof.
  unfold Cli.create_pytest_ini_with_llm, Cli.clean_code, Cli.chain_invoke, model_invoke,
    write_file, try_except, bind, logger, emit, set_fs, ret.
  run_env; (eexists; eexists; split; [reflexivity|]); cbn;
    rewrite <- ?app_assoc; repeat split.
Qed.

(** X13. On a path that exists, [generate_tests_cli] never raises.  When
    the traversal is through, the model has been called once for every
    source that could be read and once more for [pytest.ini], and the last
    thing logged is that the test cases were generated and saved, whatever
    failed on the way. *)
Theorem X13_generate_tests_cli_always_reports_success :
  forall (FS : Type) (os : OS FS) (fuel : nat) (project_path : str) (w : World FS),
    fs_exists project_path (fs w) = true ->
    exists (o : outcome unit) (w' : World FS) (evs : list Event),
      Cli.generate_tests_cli fuel project_path w = (o, w')
      /\ (forall e, o <> Raise e)
      /\ trace w' = trace w ++ evs
      /\ (o = Ok tt ->
          List.length (model_calls evs) = S (List.length (successful_reads evs))
          /\ exists before,
              evs = before
                    ++ [Log INFO (u "Test cases generated and saved in the tests folder.")]).
Proof.
  intros FS os fuel project_path w Hexists.
  unfold Cli.generate_tests_cli, os_path_exists. unfold bind at 1. rewrite Hexists.
  cbn [negb]. unfold try_except.
  destruct (cli_process_project_traversed fuel project_path w)
    as (o1 & w1 & e1 & Hrun1 & Hno1 & Htr1 & _ & (Hcalls & _ & _)).
  unfold bind at 1. rewrite Hrun1.
  destruct o1 as [[]|e|].
  - destruct (create_pytest_ini_events (os_path_join project_path (u "tests")) w1)
      as (w2 & e2 & Hrun2 & Htr2 & Hcalls2 & Hreads2).
    unfold bind at 1. rewrite Hrun2. cbn.
    eexists; eexists;
      exists (e1 ++ e2 ++ [Log INFO (u "Test cases generated and saved in the tests folder.")]).
    split; [reflexivity|]. split; [discriminate|]. cbn. split.
    + rewrite Htr2, Htr1, <- !app_assoc. reflexivity.
    + intros _. split.
      * unfold model_calls, successful_reads in *.
        rewrite !flat_map_app, !length_app, Hreads2. cbn. lia.
      * exists (e1 ++ e2). now rewrite <- app_assoc.
  - exfalso. now apply (Hno1 e).
  - exists OutOfFuel, w1, e1. split; [reflexivity|]. split; [discriminate|].
    split; [exact Htr1 | discriminate].
Qed.

Lemma X13_generate_tests_cli_always_reports_success_witness :
  exists (o : outcome unit) (w' : World Sim.FS) (evs : list Event),
    Cli.generate_tests_cli 5 (u "proj") (Sim.world demo_project broken_model) = (o, w')
    /\ (forall e, o <> Raise e)
    /\ trace w' = trace (Sim.world demo_project broken_model) ++ evs
    /\ (o = Ok tt ->
        List.length (model_calls evs) = S (List.length (successful_reads evs))
        /\ exists before,
            evs = before
                  ++ [Log INFO (u "Test cases generated and saved in the tests folder.")]).
Proof.
  apply (X13_generate_tests_cli_always_reports_success
           Sim.FS Sim.os 5%nat (u "proj") (Sim.world demo_project broken_model)).
  reflexivity.
Defined.

(** X14. When the [docs] folder cannot be made, doc generation writes
    nothing: on a path that exists, with a tree [fuel] suffices for,
    [generate_docs_cli] returns normally, no write is tried, and the last
    thing logged is the error about generating the documentation. *)
Theorem X14_generate_docs_cli_without_docs_folder :
  forall (FS : Type) (os : OS FS) (fuel : nat) (project_path msg : str) (w : World FS)
         (entries : list (str * list str * list str)) (fs1 : FS),
    fs_exists project_path (fs w) = true ->
    walk_list fuel project_path (fs w) = Some entries ->
    fs_makedirs (Markd.markdown_folder project_path) (fs w) = (Failure msg, fs1) ->
    exists (w' : World FS) (evs before : list Event),
      Markd.generate_docs_cli fuel project_path w = (Ok tt, w')
      /\ trace w' = trace w ++ evs
      /\ writes evs = []
      /\ evs = before
               ++ [ Makedirs (Markd.markdown_folder project_path) false;
                    Log ERROR (u "Error generating documentation: " ++ msg) ].
Proof.
  intros FS os fuel project_path msg w entries fs1 Hexists Hlist Hmk.
  destruct (summarize_project_spec fuel project_path w entries Hlist)
    as (w1 & e1 & bss & Hrun & (Hfs & Hllm & Htr & Hw) & _).
  unfold Markd.generate_docs_cli, os_path_exists. unfold bind at 1. rewrite Hexists.
  cbn [negb]. unfold try_except, Markd.process_project.
  unfold bind at 1. rewrite (bind_ok _ _ _ _ _ Hrun).
  unfold Markd.save_markdown_document, os_makedirs, bind, logger, emit, set_fs.
  rewrite Hfs, Hmk. cbn.
  eexists; exists (e1 ++ [ Makedirs (Markd.markdown_folder project_path) false;
                           Log ERROR (u "Error generating documentation: " ++ msg) ]), e1.
  split; [reflexivity|]. cbn. rewrite Htr, <- !app_assoc.
  split; [reflexivity|]. split; [|reflexivity].
  unfold writes in *. rewrite flat_map_app, Hw. reflexivity.
Qed.

Lemma X14_generate_docs_cli_without_docs_folder_witness :
  exists (w' : World Sim.FS) (evs before : list Event),
    Markd.generate_docs_cli 5 (u "p") (Sim.world project_with_docs_file fenced_model)
    = (Ok tt, w')
    /\ trace w' = trace (Sim.world project_with_docs_file fenced_model) ++ evs
    /\ writes evs = []
    /\ evs = before
             ++ [ Makedirs (Markd.markdown_folder (u "p")) false;
                  Log ERROR (u "Error generating documentation: "
                               ++ (u "[Errno 17] File exists: " ++ u "p/docs")) ].
Proof.
  apply (X14_generate_docs_cli_without_docs_folder
           Sim.FS Sim.os 5%nat (u "p") (u "[Errno 17] File exists: " ++ u "p/docs")
           (Sim.world project_with_docs_file fenced_model)
           [ (u "p", [], [u "a.py"; u "docs"]) ] project_with_docs_file).
  - reflexivity.
  - vm_compute. reflexivity.
  - vm_compute. reflexivity.
Defined.

(** X15. When the document cannot be written, doc generation still
    reports success: on a path that exists, with a tree [fuel] suffices
    for and a [docs] folder that is there, [generate_docs_cli] logs the
    error about saving and then, as the last thing, that the documentation
    was generated and saved. *)
Theorem X15_generate_docs_cli_reports_success_after_a_failed_write :
  forall (FS : Type) (os : OS FS) (fuel : nat) (project_path msg : str) (w : World FS)
         (entries : list (str * list str * list str)) (fs1 : FS),
    fs_exists project_path (fs w) = true ->
    walk_list fuel project_path (fs w) = Some entries ->
    fs_makedirs (Markd.markdown_folder project_path) (fs w) = (Success tt, fs1) ->
    (forall content,
        fst (fs_write (Markd.markdown_file_path project_path) content fs1) = Failure msg) ->
    exists (w' : World FS) (evs before : list Event) (content : str),
      Markd.generate_docs_cli fuel project_path w = (Ok tt, w')
      /\ trace w' = trace w ++ evs
      /\ evs = before
               ++ [ Makedirs (Markd.markdown_folder project_path) true;
                    Write (Markd.markdown_file_path project_path) content false;
                    Log ERROR (u "Error saving markdown document: " ++ msg);
                    Log INFO
                        (u "Markdown documentation generated and saved in the docs folder.") ].
Proof.
  intros FS os fuel project_path msg w entries fs1 Hexists Hlist Hmk Hwr.
  destruct (summarize_project_spec fuel project_path w entries Hlist)
    as (w1 & e1 & bss & Hrun & (Hfs & Hllm & Htr & Hw) & _).
  specialize (Hwr (join NL (concat bss))).
  destruct (fs_write (Markd.markdown_file_path project_path) (join NL (concat bss)) fs1)
    as [r fs2] eqn:Hwrite.
  cbn in Hwr. subst r.
  unfold Markd.generate_docs_cli, os_path_exists. unfold bind at 1. rewrite Hexists.
  cbn [negb]. unfold try_except, Markd.process_project.
  unfold bind at 1. unfold bind at 1. rewrite Hrun.
  unfold Markd.save_markdown_document, os_makedirs, write_file, try_except, bind,
    logger, emit, set_fs.
  rewrite Hfs, Hmk. cbn. rewrite Hwrite. cbn.
  eexists; eexists; exists e1, (join NL (concat bss)).
  split; [reflexivity|]. cbn. rewrite Htr, <- !app_assoc.
  split; reflexivity.
Qed.

Lemma X15_generate_docs_cli_reports_success_after_a_failed_write_witness :
  exists (w' : World Sim.FS) (evs before : list Event) (content : str),
    Markd.generate_docs_cli 5 (u "p") (Sim.world project_with_document_folder fenced_model)
    = (Ok tt, w')
    /\ trace w' = trace (Sim.world project_with_document_folder fenced_model) ++ evs
    /\ evs = before
             ++ [ Makedirs (Markd.markdown_folder (u "p")) true;
                  Write (Markd.markdown_file_path (u "p")) content false;
                  Log ERROR (u "Error saving markdown document: "
                               ++ (u "[Errno 21] Is a directory: "
                                     ++ u "p/docs/project_documentation.md"));
                  Log INFO
                      (u "Markdown documentation generated and saved in the docs folder.") ].
Proof.
  apply (X15_generate_docs_cli_reports_success_after_a_failed_write
           Sim.FS Sim.os 5%nat (u "p")
           (u "[Errno 21] Is a directory: " ++ u "p/docs/project_documentation.md")
           (Sim.world project_with_document_folder fenced_model)
           [ (u "p", [u "docs"], [u "a.py"]); (u "p/docs", [u "project_documentation.md"], []);
             (u "p/docs/project_documentation.md", [], []) ]
           project_with_document_folder).
  - reflexivity.
  - vm_compute. reflexivity.
  - vm_compute. reflexivity.
  - intro content. reflexivity.
Defined.

(** ** More on output names *)

Lemma rfind_not_in (c : char) (s : str) : ~ In c s -> rfind c s = (-1)%Z.
Proof.
  induction s as [|x s IH]; intro H; [reflexivity|].
  cbn [rfind]. rewrite IH by (intro; apply H; now right).
  cbn. destruct (x =? c) eqn:E; [|reflexivity].
  apply N.eqb_eq in E. exfalso. apply H. now left.
Qed.

Lemma rfind_app_found (c : char) (s t : str) :
  (0 <= rfind c t)%Z -> rfind c (s ++ t) = (Z.of_nat (List.length s) + rfind c t)%Z.
Proof.
  intro Ht. induction s as [|x s IH]; [cbn; lia|].
  cbn [app rfind]. rewrite IH.
  destruct (0 <=? Z.of_nat (List.length s) + rfind c t)%Z eqn:E.
  - cbn [List.length]. lia.
  - apply Z.leb_gt in E. lia.
Qed.

Lemma all_dots_existsb (s : str) :
  existsb (fun c => negb (c =? DOT)) s = negb (all_dots s).
Proof.
  unfold all_dots. induction s as [|c s IH]; [reflexivity|].
  cbn [existsb forallb]. rewrite IH, (N.eqb_sym DOT c).
  destruct (c =? DOT); reflexivity.
Qed.

Lemma all_dots_no_sep (s : str) : all_dots s = true -> ~ In SEP s.
Proof.
  unfold all_dots. rewrite forallb_forall. intros H Hin.
  specialize (H SEP Hin). discriminate.
Qed.

(** [os.path.splitext] on a name that ends in [.py] and holds no
    separator. *)
Lemma splitext_source (stem : str) :
  ~ In SEP stem ->
  splitext (stem ++ u ".py")
  = if all_dots stem then (stem ++ u ".py", []) else (stem, u ".py").
Proof.
  intro Hsep. unfold splitext.
  assert (Hs : rfind SEP (stem ++ u ".py") = (-1)%Z).
  { apply rfind_not_in. intro H. apply in_app_or in H as [H | H]; [now apply Hsep|].
    vm_compute in H. intuition discriminate. }
  assert (Hd : rfind DOT (stem ++ u ".py") = Z.of_nat (List.length stem)).
  { rewrite rfind_app_found; [|vm_compute; discriminate].
    change (rfind DOT (u ".py")) with 0%Z. lia. }
  rewrite Hs, Hd. unfold slice.
  replace (Z.to_nat (Z.of_nat (List.length stem) - (-1 + 1))) with (List.length stem) by lia.
  change (Z.to_nat (-1 + 1)) with 0%nat. cbn [skipn].
  rewrite Nat2Z.id, firstn_app, Nat.sub_diag, firstn_all, skipn_app, Nat.sub_diag,
    skipn_all. cbn [firstn skipn]. rewrite !app_nil_r, app_nil_l.
  rewrite all_dots_existsb.
  replace (-1 <? Z.of_nat (List.length stem))%Z with true by (symmetry; apply Z.ltb_lt; lia).
  destruct (all_dots stem); reflexivity.
Qed.

(** X16. The test file of a source [<stem>.py] whose name holds no
    separator is [test_<stem>.py], unless the stem is made of dots only
    (or is empty, as for the file [.py]): then the whole name counts as
    stem and the test file is [test_<stem>.py.py]. *)
Theorem X16_test_file_name_of_a_source :
  forall stem : str,
    ~ In SEP stem ->
    is_source (stem ++ u ".py") = true
    /\ Cli.test_file_name (stem ++ u ".py")
       = if all_dots stem then u "test_" ++ stem ++ u ".py" ++ u ".py"
         else u "test_" ++ stem ++ u ".py".
Proof.
  intros stem Hsep. split.
  - unfold is_source, endswith. rewrite rev_app_distr. apply startswith_app.
  - unfold Cli.test_file_name. rewrite (splitext_source stem Hsep).
    destruct (all_dots stem); cbn [fst]; [now rewrite <- app_assoc | reflexivity].
Qed.

Lemma X16_test_file_name_of_a_source_witness :
  Cli.test_file_name (u "my.module" ++ u ".py") = u "test_" ++ u "my.module" ++ u ".py"
  /\ Cli.test_file_name ([] ++ u ".py") = u "test_" ++ [] ++ u ".py" ++ u ".py".
Proof.
  split.
  - apply (X16_test_file_name_of_a_source (u "my.module")).
    vm_compute. intuition discriminate.
  - apply (X16_test_file_name_of_a_source []). intros [].
Defined.

(** X17. Two sources in one run whose names hold no separator and whose
    stems are not made of dots only are written to the same test file
    only when they have the same name. *)
Theorem X17_ordinary_names_do_not_collide :
  forall folder_path stem1 stem2 : str,
    ~ In SEP stem1 -> ~ In SEP stem2 ->
    all_dots stem1 = false -> all_dots stem2 = false ->
    Cli.test_file_path (stem1 ++ u ".py") folder_path
    = Cli.test_file_path (stem2 ++ u ".py") folder_path ->
    stem1 = stem2.
Proof.
  intros folder_path stem1 stem2 Hsep1 Hsep2 Hd1 Hd2 Heq.
  unfold Cli.test_file_path in Heq.
  apply os_path_join_inj in Heq; [|reflexivity|reflexivity].
  apply test_file_name_inj in Heq.
  rewrite (splitext_source stem1 Hsep1), (splitext_source stem2 Hsep2), Hd1, Hd2 in Heq.
  exact Heq.
Qed.

Lemma X17_ordinary_names_do_not_collide_witness :
  u "a" = u "a".
Proof.
  apply (X17_ordinary_names_do_not_collide (u "proj") (u "a") (u "a")).
  - vm_compute. intuition discriminate.
  - vm_compute. intuition discriminate.
  - reflexivity.
  - reflexivity.
  - reflexivity.
Defined.

(** ** More on the traversals *)

(** X18. A source that cannot be read is passed over: both loop bodies
    log one error with the message of the failure and go on; the model is
    not called, nothing is written, and the summary of [markd.py] stays as
    it was. *)
Theorem X18_unreadable_source_is_passed_over :
  forall (FS : Type) (os : OS FS) (folder_path root relative_root file msg : str)
         (summary : list str) (w : World FS),
    is_source file = true ->
    fs_read (os_path_join root file) (fs w) = Failure msg ->
    Cli.process_file folder_path root file w
    = (Ok tt,
       after w [ Read (os_path_join root file) false;
                 Log ERROR (u "Error processing " ++ os_path_join root file
                              ++ u ": " ++ msg) ])
    /\ Markd.process_file root relative_root file summary w
       = (Ok summary,
          after w [ Read (os_path_join root file) false;
                    Log ERROR (u "Error processing " ++ os_path_join root file
                                 ++ u ": " ++ msg) ]).
Proof.
  intros FS os folder_path root relative_root file msg summary w Hsrc Hread.
  unfold is_source in Hsrc. split.
  - unfold Cli.process_file. rewrite Hsrc.
    unfold read_file, try_except, bind, logger, emit, ret, after.
    rewrite Hread. cbn. now rewrite <- app_assoc.
  - unfold Markd.process_file. rewrite Hsrc.
    unfold read_file, try_except, bind, logger, emit, ret, after.
    rewrite Hread. cbn. now rewrite <- app_assoc.
Qed.

Lemma X18_unreadable_source_is_passed_over_witness :
  let w := Sim.world demo_project fenced_model in
  Markd.process_file (u "proj") (u ".") (u "gone.py") [u "kept"] w
  = (Ok [u "kept"],
     after w [ Read (os_path_join (u "proj") (u "gone.py")) false;
               Log ERROR (u "Error processing " ++ os_path_join (u "proj") (u "gone.py")
                            ++ u ": "
                            ++ (u "[Errno 2] No such file or directory: "
                                  ++ u "proj/gone.py")) ]).
Proof.
  intro w.
  apply (X18_unreadable_source_is_passed_over
           Sim.FS Sim.os (u "proj") (u "proj") (u ".") (u "gone.py")
           (u "[Errno 2] No such file or directory: " ++ u "proj/gone.py")
           [u "kept"] w).
  - reflexivity.
  - reflexivity.
Defined.

(** X19. A folder that cannot be listed gives an empty traversal, not an
    error: test generation only logs that it scans, and doc generation
    goes on to save an empty document. *)
Theorem X19_unlistable_folder_gives_an_empty_run :
  forall (FS : Type) (os : OS FS) (n : nat) (folder_path msg : str) (w : World FS),
    fs_scandir folder_path (fs w) = Failure msg ->
    Cli.process_project (S n) folder_path w
    = (Ok tt, after w [Log DEBUG (u "Scanning folder structure at: " ++ folder_path)])
    /\ Markd.process_project (S n) folder_path w
       = Markd.save_markdown_document [] folder_path
           (after w [Log DEBUG (u "Scanning folder structure at: " ++ folder_path)]).
Proof.
  intros FS os n folder_path msg w Hscan. split.
  - unfold Cli.process_project, bind, logger, emit. cbn. now rewrite Hscan.
  - unfold Markd.process_project, Markd.summarize_project, bind, logger, emit. cbn.
    now rewrite Hscan.
Qed.

Lemma X19_unlistable_folder_gives_an_empty_run_witness :
  let w := Sim.world demo_project fenced_model in
  Cli.process_project 1 (u "proj/a.py") w
  = (Ok tt, after w [Log DEBUG (u "Scanning folder structure at: " ++ u "proj/a.py")])
  /\ Markd.process_project 1 (u "proj/a.py") w
     = Markd.save_markdown_document [] (u "proj/a.py")
         (after w [Log DEBUG (u "Scanning folder structure at: " ++ u "proj/a.py")]).
Proof.
  intro w.
  apply (X19_unlistable_folder_gives_an_empty_run
           Sim.FS Sim.os 0%nat (u "proj/a.py")
           (u "[Errno 20] Not a directory: " ++ u "proj/a.py") w).
  reflexivity.
Defined.

(** X20. The document begins with the heading of the project folder
    itself: when the folder can be listed and [fuel] suffices for its
    tree, the text handed to [save_markdown_document] starts with
    [## Directory: ] and the path of the folder relative to itself. *)
Theorem X20_document_begins_with_the_heading_of_the_folder :
  forall (FS : Type) (os : OS FS) (fuel : nat) (folder_path : str) (w : World FS)
         (entries : list (str * list str * list str)) (dirs files : list str),
    walk_list fuel folder_path (fs w) = Some entries ->
    fs_scandir folder_path (fs w) = Success (dirs, files) ->
    exists (summary : list str) (w1 : World FS),
      Markd.summarize_project fuel folder_path w = (Ok summary, w1)
      /\ Markd.process_project fuel folder_path w
         = Markd.save_markdown_document (join NL summary) folder_path w1
      /\ startswith (join NL summary)
                    (u "## Directory: " ++ fs_relpath folder_path folder_path (fs w) ++ NL)
         = true.
Proof.
  intros FS os fuel folder_path w entries dirs files Hlist Hscan.
  destruct (summarize_project_spec fuel folder_path w entries Hlist)
    as (w1 & evs & bss & Hrun & _ & HR).
  exists (concat bss), w1. split; [exact Hrun|]. split.
  { unfold Markd.process_project. now rewrite (bind_ok _ _ _ _ _ Hrun). }
  destruct fuel as [|n]; [discriminate|].
  cbn [walk_list] in Hlist. rewrite Hscan in Hlist.
  destruct (walk_each (fun d => walk_list n (os_path_join folder_path d) (fs w)) dirs)
    as [rest|]; [|discriminate].
  injection Hlist as <-.
  inversion HR as [|e bs es bss' Hbs _]; subst.
  destruct Hbs as (blocks & -> & _).
  cbn [concat app].
  change (u "## Directory: " ++ fs_relpath folder_path folder_path (fs w) ++ NL)
    with (Markd.directory_heading (fs_relpath folder_path folder_path (fs w))).
  destruct (blocks ++ concat bss') as [|b bs'].
  - cbn [join]. rewrite <- (app_nil_r (Markd.directory_heading _)) at 1.
    apply startswith_app.
  - change (join NL (Markd.directory_heading (fs_relpath folder_path folder_path (fs w))
                       :: b :: bs'))
      with (Markd.directory_heading (fs_relpath folder_path folder_path (fs w))
              ++ NL ++ join NL (b :: bs')).
    apply startswith_app.
Qed.

Lemma X20_document_begins_with_the_heading_of_the_folder_witness :
  let w := Sim.world demo_project broken_model in
  exists (summary : list str) (w1 : World Sim.FS),
    Markd.summarize_project 5 (u "proj") w = (Ok summary, w1)
    /\ Markd.process_project 5 (u "proj") w
       = Markd.save_markdown_document (join NL summary) (u "proj") w1
    /\ startswith (join NL summary)
                  (u "## Directory: " ++ fs_relpath (u "proj") (u "proj") (fs w) ++ NL)
       = true.
Proof.
  intro w.
  apply (X20_document_begins_with_the_heading_of_the_folder
           Sim.FS Sim.os 5%nat (u "proj") w demo_entries
           [u "sub"] [u "a.py"; u "b.py"; u "notes.txt"]).
  - vm_compute. reflexivity.
  - vm_compute. reflexivity.
Defined.

(** X21. In doc generation a failed model call leaves its message in the
    document: for a source that can be read, when the call fails with
    [msg], the loop body appends the block [Error: msg] to the summary,
    where the section of the file would have been. *)
Theorem X21_model_error_text_goes_into_the_document :
  forall (FS : Type) (os : OS FS) (root relative_root file code msg : str)
         (summary : list str) (w : World FS),
    is_source file = true ->
    fs_read (os_path_join root file) (fs w) = Success code ->
    llm w (calls w) (Markd.template (Markd.question code file)) = Failure msg ->
    Markd.process_file root relative_root file summary w
    = (Ok (summary ++ [u "Error: " ++ msg]),
       mkWorld (fs w) (llm w) (S (calls w))
         (trace w ++
          [ Read (os_path_join root file) true;
            Log INFO (u "Read file: " ++ os_path_join root file);
            Log DEBUG (u "Generating markdown document...");
            Invoke (Markd.template (Markd.question code file)) false;
            Log ERROR (u "Error generating markdown document: " ++ msg) ])).
Proof.
  intros FS os root relative_root file code msg summary w Hsrc Hread Hllm.
  unfold Markd.process_file. unfold is_source in Hsrc. rewrite Hsrc.
  unfold Markd.generate_markdown_document, Markd.chain_invoke, model_invoke, read_file,
    try_except, bind, logger, emit, ret.
  cbn. rewrite Hread. cbn. rewrite Hllm. cbn. rewrite <- !app_assoc. reflexivity.
Qed.

Lemma X21_model_error_text_goes_into_the_document_witness :
  fst (Markd.process_file (u "proj") (u ".") (u "a.py") []
                          (Sim.world demo_project broken_model))
  = Ok ([] ++ [u "Error: " ++ u "connection refused"]).
Proof.
  rewrite (X21_model_error_text_goes_into_the_document
             Sim.FS Sim.os (u "proj") (u ".") (u "a.py") (u "x = 1")
             (u "connection refused") [] (Sim.world demo_project broken_model)
             eq_refl eq_refl eq_refl).
  reflexivity.
Defined.

(** X22. When everything works, the test file holds the cleaned answer of
    the model: for a source that can be read, a model that answers and a
    tests folder that can be made and written to, the loop body of test
    generation writes the answer without its fence lines to the test file
    of the source. *)
Theorem X22_test_file_holds_the_cleaned_answer :
  forall (FS : Type) (os : OS FS) (w : World FS)
         (folder_path root file code response : str) (fs1 fs2 : FS),
    is_source file = true ->
    fs_read (os_path_join root file) (fs w) = Success code ->
    llm w (calls w) (Cli.template (Cli.question code file)) = Success response ->
    fs_makedirs (Cli.tests_folder folder_path) (fs w) = (Success tt, fs1) ->
    fs_write (Cli.test_file_path file folder_path) (clean_code_value response) fs1
    = (Success tt, fs2) ->
    exists (w' : World FS) (evs : list Event),
      Cli.process_file folder_path root file w = (Ok tt, w')
      /\ fs w' = fs2
      /\ trace w' = trace w ++ evs
      /\ writes evs = [(Cli.test_file_path file folder_path, clean_code_value response)]
      /\ error_logs evs = [].
Proof.
  intros FS os w folder_path root file code response fs1 fs2 Hsrc Hread Hllm Hmk Hwr.
  unfold Cli.process_file. unfold is_source in Hsrc. rewrite Hsrc.
  unfold Cli.save_test_cases, Cli.generate_test_cases, Cli.clean_code, Cli.chain_invoke,
    model_invoke, read_file, os_makedirs, write_file, try_except, bind, logger, emit,
    set_fs, ret.
  cbn. rewrite Hread. cbn. rewrite Hllm. cbn. rewrite Hmk. cbn. rewrite Hwr. cbn.
  eexists; eexists. split; [reflexivity|]. cbn. rewrite <- ?app_assoc.
  repeat split.
Qed.

Lemma X22_test_file_holds_the_cleaned_answer_witness :
  exists (w' : World Sim.FS) (evs : list Event),
    Cli.process_file (u "proj") (u "proj") (u "a.py") (Sim.world demo_project fenced_model)
    = (Ok tt, w')
    /\ fs w' = snd (Sim.write (u "proj/tests/test_a.py") (u "assert True")
                              (snd (Sim.makedirs (u "proj/tests") demo_project)))
    /\ trace w' = trace (Sim.world demo_project fenced_model) ++ evs
    /\ writes evs
       = [(Cli.test_file_path (u "a.py") (u "proj"),
           clean_code_value (u "```python" ++ NL ++ u "assert True" ++ NL ++ u "```"))]
    /\ error_logs evs = [].
Proof.
  apply (X22_test_file_holds_the_cleaned_answer
           Sim.FS Sim.os (Sim.world demo_project fenced_model)
           (u "proj") (u "proj") (u "a.py") (u "x = 1")
           (u "```python" ++ NL ++ u "assert True" ++ NL ++ u "```")
           (snd (Sim.makedirs (u "proj/tests") demo_project))); vm_compute; reflexivity.
Defined.

Lemma cli_listing_without_sources {FS : Type} {os : OS FS}
      (folder_path root : str) (files : list str) (w : World FS) :
  (forall f, In f files -> is_source f = false) ->
  Cli.process_listing folder_path root files w = (Ok tt, w).
Proof.
  intro Hnone. unfold Cli.process_listing, os_path_relpath. unfold bind at 1.
  induction files as [|f files IH]; [reflexivity|].
  assert (Hf : endswith f (u ".py") = false) by (apply (Hnone f); now left).
  cbn [for_each]. unfold bind at 1. unfold Cli.process_file. rewrite Hf.
  unfold ret at 1. apply IH. intros g Hg. apply Hnone. now right.
Qed.

Lemma markd_listing_without_sources {FS : Type} {os : OS FS}
      (folder_path root : str) (files : list str) (summary : list str) (w : World FS) :
  (forall f, In f files -> is_source f = false) ->
  Markd.process_listing folder_path root files summary w
  = (Ok (summary ++ [Markd.directory_heading (fs_relpath root folder_path (fs w))]), w).
Proof.
  intro Hnone. unfold Markd.process_listing, os_path_relpath. unfold bind at 1.
  generalize (summary ++ [Markd.directory_heading (fs_relpath root folder_path (fs w))]).
  generalize (fs_relpath root folder_path (fs w)). intros rel.
  induction files as [|f files IH]; intro acc; [reflexivity|].
  assert (Hf : endswith f (u ".py") = false) by (apply (Hnone f); now left).
  cbn [for_each]. unfold bind at 1. unfold Markd.process_file. rewrite Hf.
  unfold ret at 1. apply IH. intros g Hg. apply Hnone. now right.
Qed.

(** X23. A listing without a source costs nothing: test generation leaves
    the world as it was (no read, no model call, no folder), and doc
    generation only appends the heading of the directory. *)
Theorem X23_listing_without_sources_does_nothing :
  forall (FS : Type) (os : OS FS) (folder_path root : str) (files : list str)
         (summary : list str) (w : World FS),
    (forall f, In f files -> is_source f = false) ->
    Cli.process_listing folder_path root files w = (Ok tt, w)
    /\ Markd.process_listing folder_path root files summary w
       = (Ok (summary ++ [Markd.directory_heading (fs_relpath root folder_path (fs w))]), w).
Proof.
  intros FS os folder_path root files summary w Hnone. split.
  - now apply cli_listing_without_sources.
  - now apply markd_listing_without_sources.
Qed.

Lemma X23_listing_without_sources_does_nothing_witness :
  let w := Sim.world demo_project fenced_model in
  Cli.process_listing (u "proj") (u "proj") [u "notes.txt"; u "Makefile"] w = (Ok tt, w)
  /\ Markd.process_listing (u "proj") (u "proj") [u "notes.txt"; u "Makefile"] [] w
     = (Ok ([] ++ [Markd.directory_heading (fs_relpath (u "proj") (u "proj") (fs w))]), w).
Proof.
  intro w.
  apply (X23_listing_without_sources_does_nothing
           Sim.FS Sim.os (u "proj") (u "proj") [u "notes.txt"; u "Makefile"] [] w).
  intros f [<- | [<- | []]]; reflexivity.
Defined.

(** X24. On a project without sources [generate_tests_cli] never asks for
    the tests folder, and still asks the model for [pytest.ini] and tries
    to write it there: for a folder that exists and lists no source and no
    sub-directory, with a model that answers, the run makes no folder and
    its one write goes to [tests/pytest.ini] under the project. *)
Theorem X24_pytest_ini_is_written_without_making_the_folder :
  forall (FS : Type) (os : OS FS) (n : nat) (project_path response : str)
         (files : list str) (w : World FS),
    fs_exists project_path (fs w) = true ->
    fs_scandir project_path (fs w) = Success ([], files) ->
    (forall f, In f files -> is_source f = false) ->
    llm w (calls w) (Cli.template Cli.pytest_ini_template) = Success response ->
    exists (w' : World FS) (evs : list Event),
      Cli.generate_tests_cli (S n) project_path w = (Ok tt, w')
      /\ trace w' = trace w ++ evs
      /\ makedirs_calls evs = []
      /\ writes evs
         = [(os_path_join (os_path_join project_path (u "tests")) (u "pytest.ini"),
             clean_code_value response)].
Proof.
  intros FS os n project_path response files w Hexists Hscan Hnone Hllm.
  unfold Cli.generate_tests_cli, os_path_exists. unfold bind at 1. rewrite Hexists.
  cbn [negb]. unfold try_except, Cli.process_project.
  unfold bind at 1. unfold bind at 1. unfold logger at 1. unfold emit at 1.
  cbn [os_walk fs]. rewrite Hscan.
  unfold bind at 1. unfold emit at 1. unfold bind at 1.
  rewrite (cli_listing_without_sources _ _ _ _ Hnone). cbn [for_each]. unfold ret at 1.
  unfold Cli.create_pytest_ini_with_llm, Cli.clean_code, Cli.chain_invoke, model_invoke,
    write_file, try_except, bind, logger, emit, set_fs, ret.
  cbn. rewrite Hllm. cbn.
  destruct (fs_write (os_path_join (os_path_join project_path (u "tests")) (u "pytest.ini"))
                     (clean_code_value response) (fs w)) as [[[]|msg] fs2]; cbn;
    (eexists; eexists; split; [reflexivity|]); cbn; rewrite <- ?app_assoc; repeat split.
Qed.

Lemma X24_pytest_ini_is_written_without_making_the_folder_witness :
  exists (w' : World Sim.FS) (evs : list Event),
    Cli.generate_tests_cli 1 (u "q") (Sim.world project_without_sources fenced_model)
    = (Ok tt, w')
    /\ trace w' = trace (Sim.world project_without_sources fenced_model) ++ evs
    /\ makedirs_calls evs = []
    /\ writes evs
       = [(os_path_join (os_path_join (u "q") (u "tests")) (u "pytest.ini"),
           clean_code_value (u "```python" ++ NL ++ u "assert True" ++ NL ++ u "```"))].
Proof.
  apply (X24_pytest_ini_is_written_without_making_the_folder
           Sim.FS Sim.os 0%nat (u "q")
           (u "```python" ++ NL ++ u "assert True" ++ NL ++ u "```")
           [u "README.md"] (Sim.world project_without_sources fenced_model)).
  - reflexivity.
  - vm_compute. reflexivity.
  - intros f [<- | []]. reflexivity.
  - reflexivity.
Defined.
